(** * Hermes: the retrieval-relevance gate and the answer pipeline

  A shallow embedding of [backend/rag_engine.py] and
  [backend/rag_service.py].

  Conventions of the model.
  - A Python [float] is the real number it denotes.  The score converter
    rounds each of its operations to the nearest binary64 number, ties to
    even ([F64.round]); [np.exp] is taken as the correctly rounded
    exponential.  The statistics of the threshold ([np.mean], [np.std]) are
    taken exactly.  Overflow to infinity and NaN are not modelled.
  - Python [str]s are [string]s whose characters are the code points
    0..255.
  - An external call is a computation [M W A]: it reads and updates a world
    [W] and either returns a value or raises an exception.
  - The diagnostic [print] and [logger] lines do not change what is
    returned and are left out: the theorems speak of the runs in which they
    go through. *)

From Stdlib Require Import Reals Lra List String Ascii ZArith Bool Arith Lia DecimalString.
Import ListNotations.
Open Scope string_scope.
Open Scope list_scope.

(* ================================================================= *)
(** ** Python values *)

Module Py.

(** [bool(s)] for a [str]: the empty string is the only falsy one. *)
Definition truthy (s : string) : bool :=
  match s with
  | EmptyString => false
  | String _ _ => true
  end.

(** [c.isspace()] on the code points below 256. *)
Definition isspace (c : ascii) : bool :=
  let n := nat_of_ascii c in
  ((9 <=? n)%nat && (n <=? 13)%nat) || ((28 <=? n)%nat && (n <=? 32)%nat)
  || (n =? 133)%nat || (n =? 160)%nat.

Fixpoint lstrip (s : string) : string :=
  match s with
  | EmptyString => EmptyString
  | String c s' => if isspace c then lstrip s' else s
  end.

Fixpoint rstrip (s : string) : string :=
  match s with
  | EmptyString => EmptyString
  | String c s' =>
      match rstrip s' with
      | EmptyString => if isspace c then EmptyString else String c EmptyString
      | r => String c r
      end
  end.

(** [s.strip()] *)
Definition strip (s : string) : string := rstrip (lstrip s).

(** Every character of [s] is whitespace (true of the empty string). *)
Fixpoint all_whitespace (s : string) : bool :=
  match s with
  | EmptyString => true
  | String c s' => isspace c && all_whitespace s'
  end.

(** [str(n)] for an [int]. *)
Definition str_int (n : Z) : string := NilZero.string_of_int (Z.to_int n).

(** The exceptions the two modules see.  [HTTPException] is FastAPI's; every
    other subclass of [Exception] is kept with its message. *)
Inductive exn : Type :=
| HTTPException (status_code : Z) (detail : string)
| Exception (message : string).

(** [str(e)].  Starlette renders an [HTTPException] as
    ["<status_code>: <detail>"]. *)
Definition str (e : exn) : string :=
  match e with
  | HTTPException status_code detail =>
      (str_int status_code ++ ": " ++ detail)%string
  | Exception message => message
  end.

Inductive result (A : Type) : Type :=
| Return (a : A)
| Raise (e : exn).
Arguments Return {A} a.
Arguments Raise {A} e.

(** A computation over the world [W]. *)
Definition M (W A : Type) : Type := W -> result A * W.

Definition ret {W A : Type} (a : A) : M W A := fun w => (Return a, w).

Definition raise {W A : Type} (e : exn) : M W A := fun w => (Raise e, w).

Definition bind {W A B : Type} (m : M W A) (k : A -> M W B) : M W B :=
  fun w =>
    match m w with
    | (Return a, w') => k a w'
    | (Raise e, w') => (Raise e, w')
    end.

(** [try: body / except Exception as e: handler(e)] *)
Definition try_except {W A : Type} (body : M W A) (handler : exn -> M W A)
  : M W A :=
  fun w =>
    match body w with
    | (Return a, w') => (Return a, w')
    | (Raise e, w') => handler e w'
    end.

(** A [dict] with [str] keys. *)
Definition dict (V : Type) : Type := list (string * V).

Fixpoint dict_get {V : Type} (d : dict V) (key : string) : option V :=
  match d with
  | [] => None
  | (k, v) :: d' => if String.eqb k key then Some v else dict_get d' key
  end.

(** [d[key] = v] *)
Fixpoint dict_set {V : Type} (d : dict V) (key : string) (v : V) : dict V :=
  match d with
  | [] => [(key, v)]
  | (k, v0) :: d' =>
      if String.eqb k key then (k, v) :: d' else (k, v0) :: dict_set d' key v
  end.

(** What [json.loads] produces. *)
#[warnings="-register-all"]
Inductive value : Type :=
| PyNone
| PyBool (b : bool)
| PyInt (n : Z)
| PyFloat (x : R)
| PyStr (s : string)
| PyList (l : list value)
| PyDict (d : list (string * value)).

(** [bool(v)] *)
Definition truthy_value (v : value) : bool :=
  match v with
  | PyNone => false
  | PyBool b => b
  | PyInt n => negb (Z.eqb n 0)
  | PyFloat x => if Req_dec_T x 0 then false else true
  | PyStr s => truthy s
  | PyList l => match l with [] => false | _ :: _ => true end
  | PyDict d => match d with [] => false | _ :: _ => true end
  end.

(** [type(v).__name__] *)
Definition type_name (v : value) : string :=
  match v with
  | PyNone => "NoneType"
  | PyBool _ => "bool"
  | PyInt _ => "int"
  | PyFloat _ => "float"
  | PyStr _ => "str"
  | PyList _ => "list"
  | PyDict _ => "dict"
  end.

(** The [AttributeError] of [v.attr] on a value without that attribute. *)
Definition AttributeError (v : value) (attr : string) : exn :=
  Exception ("'" ++ type_name v ++ "' object has no attribute '" ++ attr ++ "'")%string.

End Py.

Import Py.

Declare Scope py_scope.
Delimit Scope py_scope with py.
Notation "x <- m ;; k" := (bind m (fun x => k))
(at level 61, m at next level, right associativity) : py_scope.

(* ================================================================= *)
(** ** IEEE 754 binary64, on the reals *)

Module F64.
Local Open Scope R_scope.

(** 2^e *)
Definition bpow (e : Z) : R := powerRZ 2 e.

Definition Zfloor (x : R) : Z := (up x - 1)%Z.

(** The nearest integer, the even one of the two at a tie. *)
Definition Znearest_even (x : R) : Z :=
  let f := Zfloor x in
  if Rlt_dec (x - IZR f) (1 / 2) then f
  else if Rlt_dec (1 / 2) (x - IZR f) then (f + 1)%Z
  else if Z.even f then f else (f + 1)%Z.

(** The exponent [m] with [2^(m-1) <= |x| < 2^m]. *)
Definition mag (x : R) : Z := (Zfloor (ln (Rabs x) / ln 2) + 1)%Z.

(** The exponent of the last place of a number of magnitude [e]: 53 bits of
    precision, and the subnormal numbers below [2^-1022]. *)
Definition fexp (e : Z) : Z := Z.max (e - 53) (-1074).

Definition round_pos (x : R) : R :=
  IZR (Znearest_even (x * bpow (- fexp (mag x)))) * bpow (fexp (mag x)).

(** Rounding to the nearest binary64 number, ties to even. *)
Definition round (x : R) : R :=
  if Rlt_dec 0 x then round_pos x
  else if Rlt_dec x 0 then - round_pos (- x)
  else 0.

(** [x * y] on two floats. *)
Definition mul (x y : R) : R := round (x * y).

End F64.

(* ================================================================= *)
(** ** NumPy on a list of floats *)

Module Np.
Local Open Scope R_scope.

Definition sum (a : list R) : R := fold_right Rplus 0 a.

(** [np.mean(a)] *)
Definition mean (a : list R) : R := sum a / INR (List.length a).

(** [np.std(a)]: the square root of the mean of the squared deviations from
    the mean, divided by the number of elements. *)
Definition std (a : list R) : R :=
  let arrmean := mean a in
  sqrt (mean (map (fun x => (x - arrmean) * (x - arrmean)) a)).

(** [np.exp] on one float *)
Definition exp (x : R) : R := F64.round (Rtrigo_def.exp x).

End Np.

(* ================================================================= *)
(** ** The LangChain objects the engine is built from *)

Module Langchain.
Local Open Scope py_scope.

Record Document : Type := mkDocument {
  page_content : string;
  metadata : dict string
}.

(** The two searches of the vector store that the engine reaches: the one it
    calls itself and the one behind [as_retriever(search_type="similarity")]. *)
Record VectorStore (W : Type) : Type := mkVectorStore {
  similarity_search_with_score : string -> nat -> M W (list (Document * R));
  similarity_search : string -> nat -> M W (list Document)
}.
Arguments similarity_search_with_score {W} _ _ _.
Arguments similarity_search {W} _ _ _.

(** What [chain.invoke] hands back. *)
Inductive output : Type :=
| OutDict (d : dict string)
| OutStr (s : string).

(** A runnable chain: [chain.invoke(inputs)]. *)
Definition Chain (W : Type) : Type := dict string -> M W output.

(** [vectordb.as_retriever(search_type="similarity", search_kwargs={"k": k})] *)
Definition as_retriever {W : Type} (vectordb : VectorStore W) (k : nat)
  : string -> M W (list Document) :=
  fun query => similarity_search vectordb query k.

(** [RetrievalQA.from_chain_type(llm, retriever, chain_type_kwargs={"prompt": prompt})],
    the default "stuff" chain: it reads the question under the key ["query"],
    asks its own retriever for the documents, joins their contents with a
    blank line into the context slot of the prompt, sends the prompt to the
    model and returns the inputs extended with the key ["result"].  Every
    other key of the inputs is carried along and not looked at. *)
Definition RetrievalQA_from_chain_type {W : Type}
  (llm : string -> M W string)
  (retriever : string -> M W (list Document))
  (prompt : string -> string -> string) : Chain W :=
  fun inputs =>
    match dict_get inputs "query" with
    | None => raise (Exception "Missing some input keys: {'query'}")
    | Some question =>
        docs <- retriever question ;;
        answer <- llm (prompt (String.concat (String "010" (String "010" EmptyString))
                                 (map page_content docs)) question) ;;
        ret (OutDict (dict_set inputs "result" answer))
    end.

End Langchain.

Import Langchain.

(* ================================================================= *)
(** ** backend/rag_engine.py *)

Definition newline : string := String "010" EmptyString.

(** [custom_prompt.format(context=..., question=...)] *)
Definition custom_prompt (context question : string) : string :=
  (newline ++
   "You are a helpful and concise assistant. You will be provided with a question and some context." ++ newline ++
   newline ++
   "Instructions:" ++ newline ++
   "1. ONLY use the provided context if it contains RELEVANT information to answer the question." ++ newline ++
   "2. If the context is NOT relevant, IGNORE it and answer the question using your own knowledge." ++ newline ++
   "3. Do NOT generate creative or fictional answers." ++ newline ++
   "4. Do NOT attempt to justify or infer using the context if it's unrelated." ++ newline ++
   "5. Keep your response short and factual." ++ newline ++
   newline ++
   "Context:" ++ newline ++
   context ++ newline ++
   newline ++
   "Question:" ++ newline ++
   question ++ newline ++
   newline ++
   "Answer:" ++ newline)%string.

(** Convert cosine distance to a relevance percentage with exponential decay. *)
Definition calculate_relevance_score (score : R) : R :=
  F64.mul 100 (Np.exp (F64.mul (-3) score)).

(** First pass of [get_rag_response]: [all_scores.append(...)] per candidate. *)
Fixpoint first_pass (docs_and_scores : list (Document * R)) (all_scores : list R)
  : list R :=
  match docs_and_scores with
  | [] => all_scores
  | (doc, score) :: rest =>
      first_pass rest (all_scores ++ [calculate_relevance_score score])
  end.

(** Second pass of [get_rag_response], over
    [zip(docs_and_scores, all_scores)]: [filtered_docs.append(doc)] when
    [relevance_score >= threshold]. *)
Fixpoint second_pass (pairs : list ((Document * R) * R)) (threshold : R)
  (filtered_docs : list Document) : list Document :=
  match pairs with
  | [] => filtered_docs
  | ((doc, score), relevance_score) :: rest =>
      if Rge_dec relevance_score threshold
      then second_pass rest threshold (filtered_docs ++ [doc])
      else second_pass rest threshold filtered_docs
  end.

(** The statistics block of [get_rag_response]: the value of the variable
    [threshold] after it. *)
Definition threshold (all_scores : list R) : R :=
  match all_scores with
  | _ :: _ =>
      let mean_score := Np.mean all_scores in
      let std_score :=
        if (1 <? List.length all_scores)%nat then Np.std all_scores else 0%R in
      let base_threshold := 60%R in
      if (if Rlt_dec mean_score 40 then true else false)
         || (if Rgt_dec std_score 20 then true else false)
      then (base_threshold + 10)%R
      else base_threshold
  | [] => 60%R
  end.

(** [response = response.get("result", "")] when [response] is a [dict]. *)
Definition result_text (response : output) : string :=
  match response with
  | OutDict d =>
      match dict_get d "result" with
      | Some text => text
      | None => EmptyString
      end
  | OutStr s => s
  end.

Definition please_provide : string := "Please provide a valid question.".

Definition no_information : string :=
  "I don't have any relevant information from the provided documents to answer your question. Let me answer based on my general knowledge.".

Definition apology : string :=
  "I apologize, but I couldn't generate a meaningful response. Please try rephrasing your question.".

Section Engine.
Local Open Scope py_scope.

Variable W : Type.
Variable vectordb : VectorStore W.
Variable qa_chain : Chain W.

(** The body of the [try] block of [get_rag_response]. *)
Definition get_rag_response_try (query : string) : M W string :=
  docs_and_scores <- similarity_search_with_score vectordb query 3 ;;
  let all_scores := first_pass docs_and_scores [] in
  let threshold := threshold all_scores in
  let filtered_docs :=
    second_pass (combine docs_and_scores all_scores) threshold [] in
  match filtered_docs with
  | [] =>
      response <- qa_chain [("query", query); ("context", EmptyString)] ;;
      let response := result_text response in
      ret (if truthy response then response else no_information)
  | _ :: _ =>
      let context := String.concat (newline ++ newline) (map page_content filtered_docs) in
      response <- qa_chain [("query", query); ("context", context)] ;;
      let response := result_text response in
      if negb (truthy response) || negb (truthy (strip response))
      then ret apology
      else ret response
  end.

Definition get_rag_response (query : string) : M W string :=
  if negb (truthy query) || negb (truthy (strip query))
  then ret please_provide
  else
    try_except (get_rag_response_try query)
      (fun e => ret ("Error processing query: " ++ str e)%string).

End Engine.

Arguments get_rag_response_try {W} vectordb qa_chain query.
Arguments get_rag_response {W} vectordb qa_chain query.

(** The chain the module builds: a retriever over the vector store with
    [k = 3], and the retrieval chain over the model, that retriever and the
    prompt. *)
Definition retriever {W : Type} (vectordb : VectorStore W)
  : string -> M W (list Document) :=
  as_retriever vectordb 3.

Definition qa_chain {W : Type} (vectordb : VectorStore W)
  (llm : string -> M W string) : Chain W :=
  RetrievalQA_from_chain_type llm (retriever vectordb) custom_prompt.

(** [get_rag_response] as the module runs it, over its own [qa_chain]. *)
Definition rag_engine {W : Type} (vectordb : VectorStore W)
  (llm : string -> M W string) (query : string) : M W string :=
  get_rag_response vectordb (qa_chain vectordb llm) query.

(* ================================================================= *)
(** ** backend/rag_service.py *)

(** The incoming request: [await request.json()] parses the body. *)
Record Request (W : Type) : Type := mkRequest {
  json : M W value
}.
Arguments json {W} _.

Definition no_message : string := "No message provided in request".

Definition no_response : string :=
  "I apologize, but I couldn't generate a response. Please try again.".

(** [body.get(key)]: [None] for a missing key, an [AttributeError] when the
    parsed body is not a [dict]. *)
Definition body_get {W : Type} (body : value) (key : string) : M W value :=
  match body with
  | PyDict d =>
      ret (match dict_get d key with
           | Some v => v
           | None => PyNone
           end)
  | _ => raise (AttributeError body "get")
  end.

Section Service.
Local Open Scope py_scope.

Variable W : Type.
Variable vectordb : VectorStore W.
Variable qa_chain : Chain W.

(** [get_rag_response(query)] on whatever the body held under ["message"]:
    a truthy value that is no [str] fails at [query.strip()], before the
    [try] block of the engine. *)
Definition call_get_rag_response (query : value) : M W string :=
  match query with
  | PyStr s => get_rag_response vectordb qa_chain s
  | _ =>
      if truthy_value query
      then raise (AttributeError query "strip")
      else ret please_provide
  end.

(** The handler of [POST /rag]. *)
Definition rag_chat (request : Request W) : M W (dict string) :=
  try_except
    (body <- json request ;;
     query <- body_get body "message" ;;
     if negb (truthy_value query)
     then raise (HTTPException 400 no_message)
     else
       response <- call_get_rag_response query ;;
       if negb (truthy response)
       then ret [("answer", no_response)]
       else ret [("answer", response)])
    (fun e => raise (HTTPException 500 (str e))).

End Service.

Arguments call_get_rag_response {W} vectordb qa_chain query.
Arguments rag_chat {W} vectordb qa_chain request.

(** What FastAPI sends for the outcome of a handler: the returned [dict]
    with status 200, the status and detail of a raised [HTTPException], and
    a plain 500 for any other exception. *)
Record http_response : Type := mkResponse {
  status : Z;
  content : dict string
}.

Definition respond (outcome : result (dict string)) : http_response :=
  match outcome with
  | Return d => mkResponse 200 d
  | Raise (HTTPException status_code detail) =>
      mkResponse status_code [("detail", detail)]
  | Raise (Exception _) => mkResponse 500 [("detail", "Internal Server Error")]
  end.

(** One request through the endpoint, from the world [w]. *)
Definition post_rag {W : Type} (vectordb : VectorStore W) (qa_chain : Chain W)
  (request : Request W) (w : W) : http_response :=
  respond (fst (rag_chat vectordb qa_chain request w)).

Definition client_error (r : http_response) : Prop := (400 <= status r <= 499)%Z.

Definition server_error (r : http_response) : Prop := (500 <= status r <= 599)%Z.

(* ================================================================= *)
(** ** Recording collaborators

    Stand-ins for the vector store and the model that answer from a table
    and record every call in the world, a list of events. *)

Inductive event : Type :=
| SearchedWithScore (query : string) (k : nat)
| Searched (query : string) (k : nat)
| Prompted (prompt : string).

Definition log {A : Type} (e : event) (a : A) : M (list event) A :=
  fun w => (Return a, w ++ [e]).

Definition recording_store (index : string -> list (Document * R))
  : VectorStore (list event) :=
  mkVectorStore (list event)
    (fun query k => log (SearchedWithScore query k) (firstn k (index query)))
    (fun query k => log (Searched query k) (map fst (firstn k (index query)))).

Definition recording_llm (reply : string -> string)
  : string -> M (list event) string :=
  fun prompt => log (Prompted prompt) (reply prompt).

(** A chain that answers with a fixed output and touches nothing. *)
Definition fixed_chain {W : Type} (out : output) : Chain W :=
  fun _ => ret out.

(** A chain whose invocation raises. *)
Definition failing_chain {W : Type} (e : exn) : Chain W :=
  fun _ => raise e.

(** A vector store that finds the same candidates for every query. *)
Definition fixed_store {W : Type} (found : list (Document * R)) : VectorStore W :=
  mkVectorStore W
    (fun _ k => ret (firstn k found))
    (fun _ k => ret (map fst (firstn k found))).

(** A vector store whose searches raise. *)
Definition failing_store {W : Type} (e : exn) : VectorStore W :=
  mkVectorStore W (fun _ _ => raise e) (fun _ _ => raise e).

(** [sub] occurs in [s]. *)
Definition includes (s sub : string) : Prop :=
  exists before after : string, s = (before ++ sub ++ after)%string.

(* ================================================================= *)
(** ** The notions the specification is worded in *)

(** Population standard deviation of a batch, 0 for a single-element one. *)
Definition population_std (scores : list R) : R :=
  match scores with
  | [_] => 0%R
  | _ =>
      sqrt (Np.sum (map (fun x => Rsqr (x - Np.mean scores)) scores)
            / INR (List.length scores))
  end.

(** [l1] is [l2] with some elements left out, the others in their order. *)
Inductive subsequence {A : Type} : list A -> list A -> Prop :=
| subsequence_nil : subsequence [] []
| subsequence_skip x l1 l2 : subsequence l1 l2 -> subsequence l1 (x :: l2)
| subsequence_keep x l1 l2 : subsequence l1 l2 -> subsequence (x :: l1) (x :: l2).

(** The test of the second pass on one zipped pair, and the document of the
    pair. *)
Definition passes (cutoff : R) (pair : (Document * R) * R) : bool :=
  if Rge_dec (snd pair) cutoff then true else false.

Definition doc_of (pair : (Document * R) * R) : Document := fst (fst pair).

(** The value of [filtered_docs] after the two passes, as a function of what
    the search returned, and the context string joined from it. *)
Definition filtered_docs (docs_and_scores : list (Document * R)) : list Document :=
  let all_scores := first_pass docs_and_scores [] in
  second_pass (combine docs_and_scores all_scores) (threshold all_scores) [].

Definition context_of (docs_and_scores : list (Document * R)) : string :=
  String.concat (newline ++ newline) (map page_content (filtered_docs docs_and_scores)).

(** The inputs [{"query": query, "context": context}] of [qa_chain.invoke]. *)
Definition chain_inputs (query context : string) : dict string :=
  [("query", query); ("context", context)].

(** The filter of the evidence as one function of the candidates, their
    parallel scores and the cutoff. *)
Definition evidence_filter (candidates : list (Document * R)) (scores : list R)
  (cutoff : R) : list Document :=
  second_pass (combine candidates scores) cutoff [].

(** The answer of the [try] block once the search and the chain have
    returned. *)
Definition composed_answer (docs_and_scores : list (Document * R)) (out : output)
  : string :=
  match filtered_docs docs_and_scores with
  | [] => if truthy (result_text out) then result_text out else no_information
  | _ :: _ => if all_whitespace (result_text out) then apology else result_text out
  end.

(* ================================================================= *)
(** ** backend/utils/pdf_loader.py and the start-up of backend/rag_engine.py *)

Definition starts_with_slash (s : string) : bool :=
  match s with
  | String c _ => Ascii.eqb c "/"%char
  | EmptyString => false
  end.

Fixpoint ends_with_slash (s : string) : bool :=
  match s with
  | EmptyString => false
  | String c EmptyString => Ascii.eqb c "/"%char
  | String _ s' => ends_with_slash s'
  end.

(** [os.path.join(a, b)] on POSIX. *)
Definition os_path_join (a b : string) : string :=
  if starts_with_slash b then b
  else if negb (truthy a) || ends_with_slash a then (a ++ b)%string
  else (a ++ "/" ++ b)%string.

(** What the start-up reaches outside the repository: the file system, the
    PDF loader, the text splitter, and the constructors of the embedding
    model, of the vector store and of the language model. *)
Record Host (W Embeddings : Type) : Type := mkHost {
  os_path_exists : string -> M W bool;
  PyPDFLoader_load : string -> M W (list Document);
  split_documents : nat -> nat -> list Document -> M W (list Document);
  HuggingFaceEmbeddings : string -> M W Embeddings;
  Chroma_from_documents : list Document -> Embeddings -> M W (VectorStore W);
  Ollama : string -> M W (string -> M W string)
}.
Arguments os_path_exists {W Embeddings} _ _ _.
Arguments PyPDFLoader_load {W Embeddings} _ _ _.
Arguments split_documents {W Embeddings} _ _ _ _ _.
Arguments HuggingFaceEmbeddings {W Embeddings} _ _ _.
Arguments Chroma_from_documents {W Embeddings} _ _ _ _.
Arguments Ollama {W Embeddings} _ _ _.

(** The globals of [rag_engine] that [get_rag_response] uses. *)
Record Globals (W : Type) : Type := mkGlobals {
  global_vectordb : VectorStore W;
  global_llm : string -> M W string;
  global_qa_chain : Chain W
}.
Arguments global_vectordb {W} _.
Arguments global_llm {W} _.
Arguments global_qa_chain {W} _.

(** [data_dir] and [pdf_path], from [os.path.dirname(__file__)]. *)
Definition data_dir (module_dir : string) : string :=
  os_path_join module_dir "data".

Definition pdf_path (module_dir : string) : string :=
  os_path_join (data_dir module_dir) "Test1.pdf".

Section Startup.
Local Open Scope py_scope.

Variable W : Type.
Variable Embeddings : Type.
Variable host : Host W Embeddings.

(** utils/pdf_loader.py *)
Definition load_and_split_pdf (file_path : string) : M W (list Document) :=
  docs <- PyPDFLoader_load host file_path ;;
  split_documents host 1000 200 docs.

(** [try: body / except Exception as e: print(...); raise] *)
Definition try_reraise {A : Type} (body : M W A) : M W A :=
  try_except body (fun e => raise e).

(** The module-level statements of [rag_engine], run at import. *)
Definition rag_engine_import (module_dir : string) : M W (Globals W) :=
  found <- os_path_exists host (pdf_path module_dir) ;;
  if negb found
  then raise (Exception ("PDF file not found at " ++ pdf_path module_dir)%string)
  else
    chunks <- try_reraise (load_and_split_pdf (pdf_path module_dir)) ;;
    embeddings <- try_reraise (HuggingFaceEmbeddings host "all-MiniLM-L6-v2") ;;
    vectordb <- try_reraise (Chroma_from_documents host chunks embeddings) ;;
    llm <- try_reraise (Ollama host "phi3") ;;
    chain <- try_reraise (ret (qa_chain vectordb llm)) ;;
    ret (mkGlobals W vectordb llm chain).

End Startup.

Arguments load_and_split_pdf {W Embeddings} host file_path.
Arguments rag_engine_import {W Embeddings} host module_dir.

(** [get_rag_response] over the globals an import produced. *)
Definition get_rag_response_of {W : Type} (g : Globals W) (query : string)
  : M W string :=
  get_rag_response (global_vectordb g) (global_qa_chain g) query.

(** A host whose file system has no file at all and whose other parts record
    that they were reached. *)
Definition bare_host : Host (list string) unit :=
  mkHost (list string) unit
    (fun _ => ret false)
    (fun path w => (Return [], w ++ ["load " ++ path]%string))
    (fun _ _ docs w => (Return docs, w ++ ["split"]))
    (fun _ w => (Return tt, w ++ ["embeddings"]))
    (fun _ _ w => (Return (fixed_store []), w ++ ["chroma"]))
    (fun _ w => (Return (fun _ => ret EmptyString), w ++ ["ollama"])).

(** A host with the file in place whose loader raises. *)
Definition broken_pdf_host (e : exn) : Host (list string) unit :=
  mkHost (list string) unit
    (fun _ => ret true)
    (fun _ => raise e)
    (fun _ _ docs w => (Return docs, w ++ ["split"]))
    (fun _ w => (Return tt, w ++ ["embeddings"]))
    (fun _ _ w => (Return (fixed_store []), w ++ ["chroma"]))
    (fun _ w => (Return (fun _ => ret EmptyString), w ++ ["ollama"])).

(** A host on which every step goes through. *)
Definition working_host (found : list (Document * R)) (reply : string)
  : Host (list string) unit :=
  mkHost (list string) unit
    (fun _ => ret true)
    (fun path w => (Return [], w ++ ["load " ++ path]%string))
    (fun _ _ docs w => (Return docs, w ++ ["split"]))
    (fun _ w => (Return tt, w ++ ["embeddings"]))
    (fun _ _ w => (Return (fixed_store found), w ++ ["chroma"]))
    (fun _ w => (Return (fun _ => ret reply), w ++ ["ollama"])).

(* ================================================================= *)
(** * Properties *)

(** ** Rounding to binary64 *)

Section Rounding.
Import F64.
Local Open Scope R_scope.

Lemma Zfloor_spec (x : R) : IZR (Zfloor x) <= x < IZR (Zfloor x) + 1.
Proof.
  unfold Zfloor. rewrite minus_IZR. destruct (archimed x) as [H1 H2]. lra.
Qed.

Lemma Zfloor_unique (n : Z) (x : R) : IZR n <= x < IZR n + 1 -> Zfloor x = n.
Proof.
  intros [H1 H2]. destruct (Zfloor_spec x) as [H3 H4].
  assert (Ha : (n < Zfloor x + 1)%Z) by (apply lt_IZR; rewrite plus_IZR; lra).
  assert (Hb : (Zfloor x < n + 1)%Z) by (apply lt_IZR; rewrite plus_IZR; lra).
  lia.
Qed.

Lemma Zfloor_le (x y : R) : x <= y -> (Zfloor x <= Zfloor y)%Z.
Proof.
  intros Hxy. destruct (Zfloor_spec x) as [H1 _]. destruct (Zfloor_spec y) as [_ H2].
  assert (Ha : (Zfloor x < Zfloor y + 1)%Z) by (apply lt_IZR; rewrite plus_IZR; lra).
  lia.
Qed.

Lemma Znearest_even_cases (x : R) :
  (Znearest_even x = Zfloor x /\ x - IZR (Zfloor x) <= 1 / 2)
  \/ (Znearest_even x = (Zfloor x + 1)%Z /\ 1 / 2 <= x - IZR (Zfloor x)).
Proof.
  unfold Znearest_even. cbv zeta.
  destruct (Rlt_dec (x - IZR (Zfloor x)) (1 / 2)) as [Hlt | Hnlt].
  - left. split; [reflexivity | lra].
  - destruct (Rlt_dec (1 / 2) (x - IZR (Zfloor x))) as [Hgt | Hngt].
    + right. split; [reflexivity | lra].
    + destruct (Z.even (Zfloor x)); [left | right]; split; try reflexivity; lra.
Qed.

Lemma Znearest_even_near (n : Z) (x : R) :
  Rabs (x - IZR n) < 1 / 2 -> Znearest_even x = n.
Proof.
  intros Habs. apply Rabs_def2 in Habs. destruct Habs as [Hhi Hlo].
  destruct (Rle_lt_dec (IZR n) x) as [Hge | Hlt].
  - assert (Hf : Zfloor x = n) by (apply Zfloor_unique; lra).
    unfold Znearest_even. cbv zeta. rewrite Hf.
    destruct (Rlt_dec (x - IZR n) (1 / 2)); [reflexivity | lra].
  - assert (Hf : Zfloor x = (n - 1)%Z).
    { apply Zfloor_unique. rewrite minus_IZR. lra. }
    unfold Znearest_even. cbv zeta. rewrite Hf, minus_IZR.
    destruct (Rlt_dec (x - (IZR n - 1)) (1 / 2)); [lra |].
    destruct (Rlt_dec (1 / 2) (x - (IZR n - 1))); [lia | lra].
Qed.

Lemma Znearest_even_IZR (n : Z) : Znearest_even (IZR n) = n.
Proof.
  apply Znearest_even_near. replace (IZR n - IZR n) with 0 by ring.
  rewrite Rabs_R0. lra.
Qed.

Lemma Znearest_even_le (x y : R) :
  x <= y -> (Znearest_even x <= Znearest_even y)%Z.
Proof.
  intros Hxy. pose proof (Zfloor_le x y Hxy) as Hf.
  destruct (Z.eq_dec (Zfloor x) (Zfloor y)) as [Heq | Hne].
  - unfold Znearest_even. cbv zeta. rewrite Heq.
    destruct (Rlt_dec (x - IZR (Zfloor y)) (1 / 2)) as [Hx1 | Hx1].
    + destruct (Rlt_dec (y - IZR (Zfloor y)) (1 / 2)); [lia |].
      destruct (Rlt_dec (1 / 2) (y - IZR (Zfloor y))); [lia |].
      destruct (Z.even (Zfloor y)); lia.
    + destruct (Rlt_dec (y - IZR (Zfloor y)) (1 / 2)) as [Hy1 | Hy1]; [lra |].
      destruct (Rlt_dec (1 / 2) (x - IZR (Zfloor y))) as [Hx2 | Hx2].
      * destruct (Rlt_dec (1 / 2) (y - IZR (Zfloor y))); [lia | lra].
      * destruct (Rlt_dec (1 / 2) (y - IZR (Zfloor y))).
        -- destruct (Z.even (Zfloor y)); lia.
        -- lia.
  - destruct (Znearest_even_cases x) as [[-> _] | [-> _]];
      destruct (Znearest_even_cases y) as [[-> _] | [-> _]]; lia.
Qed.

Lemma bpow_pos (e : Z) : 0 < bpow e.
Proof. apply powerRZ_lt. lra. Qed.

Lemma bpow_add (a b : Z) : bpow (a + b) = bpow a * bpow b.
Proof. apply powerRZ_add. lra. Qed.

Lemma ln_2_pos : 0 < ln 2.
Proof. rewrite <- ln_1. apply ln_increasing; lra. Qed.

Lemma bpow_exp (e : Z) : bpow e = exp (IZR e * ln 2).
Proof. unfold bpow. rewrite powerRZ_Rpower by lra. reflexivity. Qed.

Lemma exp_le (x y : R) : x <= y -> exp x <= exp y.
Proof. intros [Hlt | ->]; [left; now apply exp_increasing | lra]. Qed.

Lemma bpow_lt (a b : Z) : (a < b)%Z -> bpow a < bpow b.
Proof.
  intros Hab. rewrite !bpow_exp. apply exp_increasing.
  apply IZR_lt in Hab. pose proof ln_2_pos. nra.
Qed.

Lemma bpow_le (a b : Z) : (a <= b)%Z -> bpow a <= bpow b.
Proof.
  intros Hab. destruct (Z.eq_dec a b) as [-> | Hne]; [lra |].
  left. apply bpow_lt. lia.
Qed.

Lemma bpow_lt_inv (a b : Z) : bpow a < bpow b -> (a < b)%Z.
Proof.
  intros Hlt. destruct (Z_lt_le_dec a b) as [H | H]; [exact H |].
  apply bpow_le in H. lra.
Qed.

Lemma bpow_IZR (e : Z) : (0 <= e)%Z -> bpow e = IZR (2 ^ e).
Proof.
  intros He. unfold bpow. destruct e as [| p | p]; [reflexivity | | lia].
  simpl powerRZ. rewrite pow_IZR. now rewrite positive_nat_Z.
Qed.

Lemma bpow_0 : bpow 0 = 1.
Proof. reflexivity. Qed.

Lemma bpow_opp_mul (e : Z) : bpow e * bpow (- e) = 1.
Proof. rewrite <- bpow_add. replace (e + - e)%Z with 0%Z by lia. reflexivity. Qed.

Lemma mag_spec (x : R) : x <> 0 -> bpow (mag x - 1) <= Rabs x < bpow (mag x).
Proof.
  intros Hx. unfold mag.
  assert (Habs : 0 < Rabs x) by now apply Rabs_pos_lt.
  set (t := ln (Rabs x) / ln 2).
  pose proof ln_2_pos as H2.
  assert (Ht : t * ln 2 = ln (Rabs x)) by (unfold t; field; lra).
  destruct (Zfloor_spec t) as [Hlo Hhi].
  replace (Zfloor t + 1 - 1)%Z with (Zfloor t) by lia.
  rewrite !bpow_exp, plus_IZR.
  rewrite <- (exp_ln (Rabs x) Habs). rewrite <- Ht.
  split.
  - apply exp_le. nra.
  - apply exp_increasing. nra.
Qed.

Lemma mag_unique (m : Z) (x : R) :
  bpow (m - 1) <= Rabs x < bpow m -> mag x = m.
Proof.
  intros [Hlo Hhi].
  assert (Hx : x <> 0).
  { intros ->. rewrite Rabs_R0 in Hlo. pose proof (bpow_pos (m - 1)). lra. }
  destruct (mag_spec x Hx) as [Hlo' Hhi'].
  assert (Ha : (m - 1 < mag x)%Z) by (apply bpow_lt_inv; lra).
  assert (Hb : (mag x - 1 < m)%Z) by (apply bpow_lt_inv; lra).
  lia.
Qed.

Lemma mag_le (x y : R) : 0 < x -> x <= y -> (mag x <= mag y)%Z.
Proof.
  intros Hx Hxy.
  destruct (mag_spec x) as [Hlo _]; [lra |].
  destruct (mag_spec y) as [_ Hhi]; [lra |].
  rewrite Rabs_pos_eq in Hlo by lra. rewrite Rabs_pos_eq in Hhi by lra.
  assert (Ha : (mag x - 1 < mag y)%Z) by (apply bpow_lt_inv; lra).
  lia.
Qed.

Lemma fexp_le (a b : Z) : (a <= b)%Z -> (fexp a <= fexp b)%Z.
Proof. unfold fexp. lia. Qed.

Lemma round_pos_nonneg (x : R) : 0 < x -> 0 <= round_pos x.
Proof.
  intros Hx. unfold round_pos.
  pose proof (bpow_pos (fexp (mag x))) as Hb.
  pose proof (bpow_pos (- fexp (mag x))) as Hb'.
  assert (Hz : (0 <= Znearest_even (x * bpow (- fexp (mag x))))%Z).
  { rewrite <- (Znearest_even_IZR 0). apply Znearest_even_le. nra. }
  apply IZR_le in Hz. nra.
Qed.

(** Scaling back after rounding an integer-valued bound. *)
Lemma round_pos_le_bound (x : R) (k : Z) :
  0 < x -> x <= bpow k -> (fexp (mag x) <= k)%Z -> round_pos x <= bpow k.
Proof.
  intros Hx Hk Hf. unfold round_pos.
  set (s := fexp (mag x)) in *.
  pose proof (bpow_pos s) as Hs. pose proof (bpow_pos (- s)) as Hs'.
  assert (Hz : (Znearest_even (x * bpow (- s)) <= 2 ^ (k - s))%Z).
  { rewrite <- (Znearest_even_IZR (2 ^ (k - s))). apply Znearest_even_le.
    rewrite <- bpow_IZR by lia.
    replace (k - s)%Z with (k + - s)%Z by lia. rewrite bpow_add. nra. }
  apply IZR_le in Hz. rewrite <- bpow_IZR in Hz by lia.
  replace (bpow k) with (bpow (k - s) * bpow s).
  - nra.
  - rewrite <- bpow_add. f_equal. lia.
Qed.

Lemma round_pos_ge_bound (x : R) (k : Z) :
  0 < x -> bpow k <= x -> (fexp (mag x) <= k)%Z -> bpow k <= round_pos x.
Proof.
  intros Hx Hk Hf. unfold round_pos.
  set (s := fexp (mag x)) in *.
  pose proof (bpow_pos s) as Hs. pose proof (bpow_pos (- s)) as Hs'.
  assert (Hz : (2 ^ (k - s) <= Znearest_even (x * bpow (- s)))%Z).
  { rewrite <- (Znearest_even_IZR (2 ^ (k - s))). apply Znearest_even_le.
    rewrite <- bpow_IZR by lia.
    replace (k - s)%Z with (k + - s)%Z by lia. rewrite bpow_add. nra. }
  apply IZR_le in Hz. rewrite <- bpow_IZR in Hz by lia.
  replace (bpow k) with (bpow (k - s) * bpow s).
  - nra.
  - rewrite <- bpow_add. f_equal. lia.
Qed.

Lemma round_pos_le (x y : R) : 0 < x -> x <= y -> round_pos x <= round_pos y.
Proof.
  intros Hx Hxy.
  pose proof (mag_le x y Hx Hxy) as Hm.
  pose proof (fexp_le _ _ Hm) as Hf.
  destruct (Z.eq_dec (fexp (mag x)) (fexp (mag y))) as [Heq | Hne].
  - unfold round_pos. rewrite Heq.
    pose proof (bpow_pos (fexp (mag y))) as Hs.
    pose proof (bpow_pos (- fexp (mag y))) as Hs'.
    assert (Hz : (Znearest_even (x * bpow (- fexp (mag y)))
                  <= Znearest_even (y * bpow (- fexp (mag y))))%Z).
    { apply Znearest_even_le. nra. }
    apply IZR_le in Hz. nra.
  - assert (Hlt : (fexp (mag x) < fexp (mag y))%Z) by lia.
    assert (Hmy : fexp (mag y) = (mag y - 53)%Z) by (unfold fexp in *; lia).
    assert (Hmx : (mag x <= mag y - 1)%Z) by (unfold fexp in *; lia).
    destruct (mag_spec x) as [_ Hxhi]; [lra |].
    destruct (mag_spec y) as [Hylo _]; [lra |].
    rewrite Rabs_pos_eq in Hxhi by lra. rewrite Rabs_pos_eq in Hylo by lra.
    pose proof (bpow_le _ _ Hmx) as Hb.
    apply Rle_trans with (bpow (mag y - 1)).
    + apply round_pos_le_bound; [exact Hx | lra | unfold fexp in *; lia].
    + apply round_pos_ge_bound; [lra | exact Hylo | lia].
Qed.

Lemma round_pos_exact (x : R) (n : Z) :
  x * bpow (- fexp (mag x)) = IZR n -> round_pos x = x.
Proof.
  intros Hn. unfold round_pos. rewrite Hn, Znearest_even_IZR, <- Hn.
  rewrite Rmult_assoc, (Rmult_comm (bpow (- _))), bpow_opp_mul. ring.
Qed.

Lemma round_0 : round 0 = 0.
Proof.
  unfold round. destruct (Rlt_dec 0 0); [lra |].
  destruct (Rlt_dec 0 0); [lra | reflexivity].
Qed.

Lemma round_pos_eq (x : R) : 0 < x -> round x = round_pos x.
Proof. intros Hx. unfold round. destruct (Rlt_dec 0 x); [reflexivity | lra]. Qed.

Lemma round_neg_eq (x : R) : x < 0 -> round x = - round_pos (- x).
Proof.
  intros Hx. unfold round. destruct (Rlt_dec 0 x); [lra |].
  destruct (Rlt_dec x 0); [reflexivity | lra].
Qed.

Lemma round_opp (x : R) : round (- x) = - round x.
Proof.
  destruct (Rtotal_order x 0) as [Hlt | [-> | Hgt]].
  - rewrite (round_neg_eq x Hlt), round_pos_eq by lra. ring.
  - rewrite Ropp_0, round_0. ring.
  - rewrite (round_pos_eq x Hgt), round_neg_eq by lra.
    now rewrite Ropp_involutive.
Qed.

Lemma round_nonneg (x : R) : 0 <= x -> 0 <= round x.
Proof.
  intros [Hx | <-]; [| rewrite round_0; lra].
  rewrite round_pos_eq by exact Hx. now apply round_pos_nonneg.
Qed.

Lemma round_le (x y : R) : x <= y -> round x <= round y.
Proof.
  intros Hxy.
  destruct (Rtotal_order x 0) as [Hx | [-> | Hx]].
  - rewrite (round_neg_eq x Hx).
    destruct (Rtotal_order y 0) as [Hy | [-> | Hy]].
    + rewrite (round_neg_eq y Hy).
      apply Ropp_le_contravar. apply round_pos_le; lra.
    + rewrite round_0. pose proof (round_pos_nonneg (- x)). lra.
    + pose proof (round_pos_nonneg (- x)). pose proof (round_nonneg y). lra.
  - rewrite round_0. now apply round_nonneg.
  - rewrite !round_pos_eq by lra. now apply round_pos_le.
Qed.

(** Integers below 2^53 are binary64 numbers. *)
Lemma round_IZR (n : Z) : (Z.abs n < 2 ^ 53)%Z -> round (IZR n) = IZR n.
Proof.
  assert (Hpos : forall p : Z, (0 < p < 2 ^ 53)%Z -> round (IZR p) = IZR p).
  { intros p [Hp0 Hp53].
    assert (Hx : 0 < IZR p) by now apply IZR_lt.
    rewrite round_pos_eq by exact Hx.
    destruct (mag_spec (IZR p)) as [Hlo Hhi]; [lra |].
    rewrite Rabs_pos_eq in Hlo, Hhi by lra.
    assert (Hm53 : (mag (IZR p) - 1 < 53)%Z).
    { apply bpow_lt_inv. apply Rle_lt_trans with (IZR p); [exact Hlo |].
      rewrite bpow_IZR by lia. now apply IZR_lt. }
    assert (Hm0 : (0 < mag (IZR p))%Z).
    { apply bpow_lt_inv. apply Rle_lt_trans with (IZR p); [| exact Hhi].
      rewrite bpow_0. apply (IZR_le 1). lia. }
    apply (round_pos_exact _ (p * 2 ^ (- fexp (mag (IZR p))))).
    rewrite mult_IZR, <- bpow_IZR; [reflexivity |].
    unfold fexp. lia. }
  intros Hn. destruct (Z.lt_trichotomy n 0) as [Hneg | [-> | Hp]].
  - replace n with (- (- n))%Z by lia. rewrite opp_IZR, round_opp.
    f_equal. apply Hpos. lia.
  - apply round_0.
  - apply Hpos. lia.
Qed.

(** Powers of two from the smallest subnormal up are binary64 numbers. *)
Lemma round_bpow (k : Z) : (-1074 <= k)%Z -> round (bpow k) = bpow k.
Proof.
  intros Hk. pose proof (bpow_pos k) as Hb.
  rewrite round_pos_eq by exact Hb.
  assert (Hm : mag (bpow k) = (k + 1)%Z).
  { apply mag_unique. rewrite Rabs_pos_eq by lra.
    replace (k + 1 - 1)%Z with k by lia. split; [lra | apply bpow_lt; lia]. }
  apply (round_pos_exact _ (2 ^ (k - fexp (k + 1)))).
  rewrite Hm. rewrite <- bpow_IZR by (unfold fexp; lia).
  rewrite <- bpow_add. f_equal; lia.
Qed.

Lemma bpow_m1 : bpow (-1) = 1 / 2.
Proof. unfold bpow. simpl. lra. Qed.

(** Just below 1 everything rounds to 1. *)
Lemma round_near_1 (z : R) : 1 - bpow (-54) < z <= 1 -> round z = 1.
Proof.
  intros [Hlo [Hlt | ->]]; [| apply (round_IZR 1); simpl; lia].
  pose proof (bpow_lt (-54) (-1) ltac:(lia)) as H54. rewrite bpow_m1 in H54.
  assert (Hz : 0 < z) by lra.
  rewrite round_pos_eq by exact Hz.
  assert (Hm : mag z = 0%Z).
  { apply mag_unique. rewrite Rabs_pos_eq by lra.
    replace (0 - 1)%Z with (-1)%Z by lia. rewrite bpow_m1, bpow_0. lra. }
  unfold round_pos. rewrite Hm.
  replace (fexp 0) with (-53)%Z by reflexivity.
  replace (- -53)%Z with 53%Z by reflexivity.
  pose proof (bpow_pos 53) as H53.
  assert (Hmid : bpow (-54) * bpow 53 = 1 / 2).
  { rewrite <- bpow_add. replace (-54 + 53)%Z with (-1)%Z by lia. apply bpow_m1. }
  rewrite (Znearest_even_near (2 ^ 53) (z * bpow 53)).
  - rewrite <- bpow_IZR by lia. rewrite <- bpow_add. reflexivity.
  - rewrite <- bpow_IZR by lia. apply Rabs_def1; nra.
Qed.

(** Below half the smallest subnormal everything rounds to 0. *)
Lemma round_underflow (z : R) : 0 <= z < bpow (-1075) -> round z = 0.
Proof.
  intros [[Hz | <-] Hhi]; [| apply round_0].
  rewrite round_pos_eq by exact Hz.
  destruct (mag_spec z) as [Hlo _]; [lra |].
  rewrite Rabs_pos_eq in Hlo by lra.
  assert (Hm : (mag z - 1 < -1075)%Z) by (apply bpow_lt_inv; lra).
  assert (Hf : fexp (mag z) = (-1074)%Z) by (unfold fexp; lia).
  unfold round_pos. rewrite Hf.
  replace (- -1074)%Z with 1074%Z by reflexivity.
  pose proof (bpow_pos 1074) as H1074.
  assert (Hmid : bpow (-1075) * bpow 1074 = 1 / 2).
  { rewrite <- bpow_add. replace (-1075 + 1074)%Z with (-1)%Z by lia. apply bpow_m1. }
  rewrite (Znearest_even_near 0 (z * bpow 1074)).
  - ring.
  - apply Rabs_def1; nra.
Qed.

(** A tie goes to the neighbour with the even last digit: 1 + 2^-53 lies
    halfway between 1 and 1 + 2^-52 and rounds down, 1 + 3 * 2^-53 lies
    halfway between 1 + 2^-52 and 1 + 2^-51 and rounds up. *)
Example round_ties_to_even :
  round (1 + bpow (-53)) = 1
  /\ round (1 + 3 * bpow (-53)) = 1 + bpow (-51).
Proof.
  pose proof (bpow_pos (-53)) as Hp.
  pose proof (bpow_lt (-53) (-3) ltac:(lia)) as H3.
  replace (bpow (-3)) with (1 / 8) in H3 by (unfold bpow; simpl; lra).
  assert (Hm : forall x : R, 1 <= x < 2 -> mag x = 1%Z).
  { intros x Hx. apply mag_unique. rewrite Rabs_pos_eq by lra.
    replace (1 - 1)%Z with 0%Z by lia. rewrite bpow_0.
    replace (bpow 1) with 2 by (unfold bpow; simpl; lra). exact Hx. }
  assert (Hs : bpow (-53) * bpow 52 = 1 / 2).
  { rewrite <- bpow_add. replace (-53 + 52)%Z with (-1)%Z by lia. apply bpow_m1. }
  assert (H52 : bpow 52 = IZR (2 ^ 52)) by (apply bpow_IZR; lia).
  assert (Hone : IZR (2 ^ 52) * bpow (-52) = 1).
  { rewrite <- H52, <- bpow_add. reflexivity. }
  split.
  - rewrite round_pos_eq by lra. unfold round_pos.
    rewrite (Hm (1 + bpow (-53))) by lra.
    replace (fexp 1) with (-52)%Z by reflexivity.
    replace (- -52)%Z with 52%Z by reflexivity.
    replace ((1 + bpow (-53)) * bpow 52) with (IZR (2 ^ 52) + 1 / 2) by (rewrite H52 in *; lra).
    assert (Hf : Zfloor (IZR (2 ^ 52) + 1 / 2) = (2 ^ 52)%Z) by (apply Zfloor_unique; lra).
    unfold Znearest_even. cbv zeta. rewrite Hf.
    destruct (Rlt_dec _ (1 / 2)); [lra |].
    destruct (Rlt_dec (1 / 2) _); [lra |].
    replace (Z.even (2 ^ 52)) with true by reflexivity. exact Hone.
  - rewrite round_pos_eq by lra. unfold round_pos.
    rewrite (Hm (1 + 3 * bpow (-53))) by lra.
    replace (fexp 1) with (-52)%Z by reflexivity.
    replace (- -52)%Z with 52%Z by reflexivity.
    replace ((1 + 3 * bpow (-53)) * bpow 52) with (IZR (2 ^ 52 + 1) + 1 / 2)
      by (rewrite plus_IZR; rewrite H52 in *; lra).
    assert (Hf : Zfloor (IZR (2 ^ 52 + 1) + 1 / 2) = (2 ^ 52 + 1)%Z)
      by (apply Zfloor_unique; lra).
    unfold Znearest_even. cbv zeta. rewrite Hf.
    destruct (Rlt_dec _ (1 / 2)); [lra |].
    destruct (Rlt_dec (1 / 2) _); [lra |].
    replace (Z.even (2 ^ 52 + 1)) with false by reflexivity.
    replace (2 ^ 52 + 1 + 1)%Z with (2 ^ 52 + 2)%Z by lia.
    rewrite plus_IZR, Rmult_plus_distr_r, Hone. f_equal.
    replace (-51)%Z with (1 + -52)%Z by lia. rewrite bpow_add.
    f_equal. unfold bpow. simpl. lra.
Qed.

End Rounding.

(** ** The score converter *)

Section ScoreConverter.
Local Open Scope R_scope.

Lemma exp_nonpos_le_1 (x : R) : x <= 0 -> Rtrigo_def.exp x <= 1.
Proof.
  intros [Hlt | Heq].
  - rewrite <- exp_0. left. now apply exp_increasing.
  - subst x. rewrite exp_0. lra.
Qed.

Lemma ln_2_lt_1 : ln 2 < 1.
Proof.
  rewrite <- (ln_exp 1). apply ln_increasing; [lra |].
  pose proof (exp_ineq1 1). lra.
Qed.

(** The three steps of the converter keep the order of their arguments. *)
Lemma calculate_relevance_score_antitone (d1 d2 : R) :
  d1 <= d2 -> calculate_relevance_score d2 <= calculate_relevance_score d1.
Proof.
  intros Hd. unfold calculate_relevance_score, Np.exp, F64.mul.
  apply round_le.
  assert (Hp : F64.round (-3 * d2) <= F64.round (-3 * d1)) by (apply round_le; lra).
  assert (Hq : F64.round (Rtrigo_def.exp (F64.round (-3 * d2)))
               <= F64.round (Rtrigo_def.exp (F64.round (-3 * d1)))).
  { apply round_le. now apply exp_le. }
  lra.
Qed.

Lemma calculate_relevance_score_0 : calculate_relevance_score 0 = 100.
Proof.
  unfold calculate_relevance_score, Np.exp, F64.mul.
  replace (-3 * 0) with 0 by ring.
  rewrite round_0, exp_0, (round_IZR 1) by (simpl; lia).
  replace (100 * 1) with 100 by ring.
  apply (round_IZR 100). simpl. lia.
Qed.

Lemma calculate_relevance_score_nonneg (d : R) : 0 <= calculate_relevance_score d.
Proof.
  unfold calculate_relevance_score, Np.exp, F64.mul.
  apply round_nonneg.
  assert (Hq : 0 <= F64.round (Rtrigo_def.exp (F64.round (-3 * d)))).
  { apply round_nonneg. left. apply exp_pos. }
  lra.
Qed.

Lemma exp_3_gt_8 : 8 < Rtrigo_def.exp 3.
Proof.
  assert (Ha : 7 / 4 < Rtrigo_def.exp (3 / 4)).
  { pose proof (exp_ineq1 (3 / 4)). lra. }
  assert (Hb : Rtrigo_def.exp (3 / 2) = Rtrigo_def.exp (3 / 4) * Rtrigo_def.exp (3 / 4)).
  { rewrite <- exp_plus. f_equal. lra. }
  assert (Hc : Rtrigo_def.exp 3 = Rtrigo_def.exp (3 / 2) * Rtrigo_def.exp (3 / 2)).
  { rewrite <- exp_plus. f_equal. lra. }
  assert (Hb' : 3 < Rtrigo_def.exp (3 / 2)) by nra.
  nra.
Qed.

(** exp 3 exceeds 8, so a candidate at distance 1 or more scores below 25. *)
Lemma calculate_relevance_score_far (d : R) :
  1 <= d -> calculate_relevance_score d < 25.
Proof.
  intros Hd.
  apply Rle_lt_trans with (calculate_relevance_score 1);
    [now apply calculate_relevance_score_antitone |].
  unfold calculate_relevance_score, Np.exp, F64.mul.
  replace (-3 * 1) with (IZR (-3)) by lra.
  rewrite (round_IZR (-3)) by (simpl; lia).
  pose proof exp_3_gt_8 as H8.
  assert (Hinv : Rtrigo_def.exp (IZR (-3)) * Rtrigo_def.exp 3 = 1).
  { rewrite <- exp_plus. replace (IZR (-3) + 3) with 0 by lra. apply exp_0. }
  pose proof (exp_pos (IZR (-3))) as Hpos.
  assert (Hb : F64.bpow (-3) = 1 / 8) by (unfold F64.bpow; simpl; lra).
  assert (Hq : F64.round (Rtrigo_def.exp (IZR (-3))) <= 1 / 8).
  { rewrite <- Hb, <- (round_bpow (-3)) by lia. apply round_le. rewrite Hb. nra. }
  apply Rle_lt_trans with (F64.round 13).
  - apply round_le. lra.
  - rewrite (round_IZR 13) by (simpl; lia). lra.
Qed.

(** C8. Of two distances [0 <= d1 < d2] the smaller one gets a relevance
    score that is greater than or equal to the other's. *)
Theorem calculate_relevance_score_decreasing (d1 d2 : R) :
  0 <= d1 -> d1 < d2 ->
  calculate_relevance_score d1 >= calculate_relevance_score d2.
Proof.
  intros _ Hlt. apply Rle_ge. apply calculate_relevance_score_antitone. lra.
Qed.

Lemma calculate_relevance_score_decreasing_witness :
  0 <= 0 /\ 0 < 1 /\ calculate_relevance_score 0 >= calculate_relevance_score 1.
Proof.
  split; [lra | split; [lra |]].
  apply (calculate_relevance_score_decreasing 0 1); lra.
Defined.

(** The distance 2^-60 is a binary64 number, and it scores 100 like the
    distance 0: the product -3 * 2^-60 lies in [-2^-58, 0], its exponential
    above 1 - 2^-54, which rounds to 1. *)
Lemma calculate_relevance_score_tiny :
  calculate_relevance_score (F64.bpow (-60)) = 100.
Proof.
  unfold calculate_relevance_score, Np.exp, F64.mul.
  pose proof (bpow_pos (-60)) as H60.
  assert (H58 : F64.bpow (-58) = 4 * F64.bpow (-60)).
  { replace (-58)%Z with (2 + -60)%Z by lia. rewrite bpow_add.
    f_equal. unfold F64.bpow. simpl. lra. }
  assert (H54 : F64.bpow (-58) < F64.bpow (-54)) by (apply bpow_lt; lia).
  assert (Hlo : - F64.bpow (-58) <= F64.round (-3 * F64.bpow (-60))).
  { rewrite <- (round_bpow (-58)) by lia. rewrite <- round_opp.
    apply round_le. lra. }
  assert (Hhi : F64.round (-3 * F64.bpow (-60)) <= 0).
  { rewrite <- round_0. apply round_le. lra. }
  set (p := F64.round (-3 * F64.bpow (-60))) in *.
  assert (Hexp_hi : Rtrigo_def.exp p <= 1) by now apply exp_nonpos_le_1.
  assert (Hexp_lo : 1 - F64.bpow (-54) < Rtrigo_def.exp p).
  { destruct (Req_dec p 0) as [-> | Hp].
    - rewrite exp_0. pose proof (bpow_pos (-54)). lra.
    - pose proof (exp_ineq1 p Hp). lra. }
  rewrite (round_near_1 (Rtrigo_def.exp p)) by lra.
  replace (100 * 1) with 100 by ring.
  apply (round_IZR 100). simpl. lia.
Qed.

(** C8 as stated fails: the binary64 distances 0 and 2^-60 are distinct and
    both score exactly 100. *)
Lemma calculate_relevance_score_decreasing_counterexample :
  0 <= 0 /\ 0 < F64.bpow (-60)
  /\ F64.round (F64.bpow (-60)) = F64.bpow (-60)
  /\ ~ (calculate_relevance_score 0 > calculate_relevance_score (F64.bpow (-60))).
Proof.
  split; [lra | split; [apply bpow_pos | split; [apply round_bpow; lia |]]].
  rewrite calculate_relevance_score_0, calculate_relevance_score_tiny. lra.
Qed.

(** C9. For every distance [d >= 0] the relevance score is at least 0 and at
    most 100, and the score of distance 0 is exactly 100. *)
Theorem calculate_relevance_score_bounds (d : R) :
  0 <= d ->
  0 <= calculate_relevance_score d <= 100 /\ calculate_relevance_score 0 = 100.
Proof.
  intros Hd. split; [split |].
  - apply calculate_relevance_score_nonneg.
  - rewrite <- calculate_relevance_score_0.
    now apply calculate_relevance_score_antitone.
  - apply calculate_relevance_score_0.
Qed.

Lemma calculate_relevance_score_bounds_witness :
  0 <= 2 /\
  (0 <= calculate_relevance_score 2 <= 100 /\ calculate_relevance_score 0 = 100).
Proof.
  split; [lra |].
  apply (calculate_relevance_score_bounds 2); lra.
Defined.

(** The distance 512 is a binary64 number and scores exactly 0: the
    exponential of -1536 lies below 2^-1075, half the smallest positive
    binary64 number. *)
Lemma calculate_relevance_score_512 : calculate_relevance_score 512 = 0.
Proof.
  unfold calculate_relevance_score, Np.exp, F64.mul.
  replace (-3 * 512) with (IZR (-1536)) by lra.
  rewrite (round_IZR (-1536)) by (simpl; lia).
  assert (Hsmall : Rtrigo_def.exp (IZR (-1536)) < F64.bpow (-1075)).
  { rewrite bpow_exp. apply exp_increasing.
    pose proof ln_2_lt_1. pose proof ln_2_pos. nra. }
  rewrite (round_underflow (Rtrigo_def.exp (IZR (-1536)))).
  - replace (100 * 0) with 0 by ring. apply round_0.
  - split; [left; apply exp_pos | exact Hsmall].
Qed.

(** C9 as stated fails: the binary64 distance 512 scores exactly 0, which is
    not strictly greater than 0. *)
Lemma calculate_relevance_score_bounds_counterexample :
  0 <= 512 /\ F64.round 512 = 512 /\ ~ (0 < calculate_relevance_score 512).
Proof.
  split; [lra | split; [apply (round_IZR 512); simpl; lia |]].
  rewrite calculate_relevance_score_512. lra.
Qed.

End ScoreConverter.

(** ** The adaptive threshold *)

Section Threshold.
Local Open Scope R_scope.

(** The [std_score] of the statistics block, on a batch that is not empty,
    is the population standard deviation of the specification. *)
Lemma std_score_population (x : R) (l : list R) :
  (if (1 <? List.length (x :: l))%nat then Np.std (x :: l) else 0)
  = population_std (x :: l).
Proof.
  destruct l as [| y l]; [reflexivity |].
  replace (1 <? List.length (x :: y :: l))%nat with true by reflexivity.
  unfold Np.std, population_std.
  f_equal. unfold Np.mean at 1. rewrite length_map.
  reflexivity.
Qed.

(** The statistics block on a batch that is not empty, as a case distinction
    on the two tests. *)
Lemma threshold_nonempty (x : R) (l : list R) :
  threshold (x :: l) =
  if Rlt_dec (Np.mean (x :: l)) 40 then 70
  else if Rgt_dec (population_std (x :: l)) 20 then 70 else 60.
Proof.
  unfold threshold. cbv zeta. rewrite std_score_population.
  destruct (Rlt_dec _ 40); cbn [orb]; [lra |].
  destruct (Rgt_dec _ 20); lra.
Qed.


(** The two values the statistics block can leave in [threshold]. *)
Lemma threshold_cases (all_scores : list R) :
  threshold all_scores = 60 \/ threshold all_scores = 70.
Proof.
  destruct all_scores as [| x l]; [now left |].
  rewrite threshold_nonempty.
  destruct (Rlt_dec _ 40); [now right |].
  destruct (Rgt_dec _ 20); [now right | now left].
Qed.

Lemma threshold_ge_60 (all_scores : list R) : 60 <= threshold all_scores.
Proof. destruct (threshold_cases all_scores) as [-> | ->]; lra. Qed.

Lemma threshold_le_70 (all_scores : list R) : threshold all_scores <= 70.
Proof. destruct (threshold_cases all_scores) as [-> | ->]; lra. Qed.

(** C10. Whatever the batch, the empty one included, the threshold is
    exactly 60 or exactly 70, and that value is the cutoff the second pass of
    the pipeline filters with. *)
Theorem threshold_60_or_70 (docs_and_scores : list (Document * R)) (all_scores : list R) :
  (threshold all_scores = 60 \/ threshold all_scores = 70)
  /\ (filtered_docs docs_and_scores
      = evidence_filter docs_and_scores (first_pass docs_and_scores []) 60
      \/ filtered_docs docs_and_scores
         = evidence_filter docs_and_scores (first_pass docs_and_scores []) 70).
Proof.
  split; [apply threshold_cases |].
  unfold filtered_docs, evidence_filter.
  destruct (threshold_cases (first_pass docs_and_scores [])) as [-> | ->];
    [left | right]; reflexivity.
Qed.

Lemma sqrt_gt_20 (v : R) : 400 < v -> sqrt v > 20.
Proof.
  intros Hv. replace 20 with (sqrt 400).
  - apply sqrt_lt_1_alt. lra.
  - replace 400 with (20 * 20) by ring. apply sqrt_square. lra.
Qed.

Lemma sqrt_le_20 (v : R) : v <= 400 -> sqrt v <= 20.
Proof.
  intros Hv. replace 20 with (sqrt 400).
  - now apply sqrt_le_1_alt.
  - replace 400 with (20 * 20) by ring. apply sqrt_square. lra.
Qed.

(** The three batches of the specification's examples. *)
Example threshold_consistent_batch : threshold [90; 85; 92] = 60.
Proof.
  rewrite threshold_nonempty.
  destruct (Rlt_dec _ 40) as [Hm | _].
  { unfold Np.mean, Np.sum in Hm. simpl in Hm. lra. }
  destruct (Rgt_dec _ 20) as [Hs | _]; [| reflexivity].
  exfalso. apply (Rgt_not_le _ _ Hs). apply sqrt_le_20.
  unfold Np.mean, Np.sum, Rsqr. simpl. lra.
Qed.

Example threshold_weak_batch : threshold [30; 35; 32] = 70.
Proof.
  rewrite threshold_nonempty.
  destruct (Rlt_dec _ 40) as [_ | Hm]; [reflexivity |].
  exfalso. apply Hm. unfold Np.mean, Np.sum. simpl. lra.
Qed.

Example threshold_scattered_batch : threshold [95; 10; 50] = 70.
Proof.
  rewrite threshold_nonempty.
  destruct (Rlt_dec _ 40) as [_ | _]; [reflexivity |].
  destruct (Rgt_dec _ 20) as [_ | Hs]; [reflexivity |].
  exfalso. apply Hs. apply sqrt_gt_20.
  unfold Np.mean, Np.sum, Rsqr. simpl. lra.
Qed.


End Threshold.

(** ** The evidence filter *)

Section EvidenceFilter.

Lemma second_pass_app (pairs : list ((Document * R) * R)) (cutoff : R)
  (filtered_docs : list Document) :
  second_pass pairs cutoff filtered_docs
  = filtered_docs ++ second_pass pairs cutoff [].
Proof.
  revert filtered_docs.
  induction pairs as [| [[doc score] relevance_score] rest IH];
    intros filtered_docs; simpl.
  - now rewrite app_nil_r.
  - destruct (Rge_dec relevance_score cutoff).
    + rewrite IH, (IH [doc]), <- app_assoc. reflexivity.
    + apply IH.
Qed.

Lemma second_pass_filter (pairs : list ((Document * R) * R)) (cutoff : R) :
  second_pass pairs cutoff [] = map doc_of (filter (passes cutoff) pairs).
Proof.
  induction pairs as [| [[doc score] relevance_score] rest IH]; simpl.
  - reflexivity.
  - unfold passes at 1. simpl.
    destruct (Rge_dec relevance_score cutoff).
    + rewrite second_pass_app, IH. reflexivity.
    + exact IH.
Qed.

Lemma subsequence_refl {A : Type} (l : list A) : subsequence l l.
Proof. induction l; constructor; assumption. Qed.

Lemma subsequence_map_filter {A B : Type} (f : A -> B) (p : A -> bool)
  (l : list A) :
  subsequence (map f (filter p l)) (map f l).
Proof.
  induction l as [| a l IH]; simpl.
  - constructor.
  - destruct (p a); simpl; constructor; assumption.
Qed.

Lemma subsequence_trans {A : Type} (l1 l2 l3 : list A) :
  subsequence l1 l2 -> subsequence l2 l3 -> subsequence l1 l3.
Proof.
  intros H12 H23. revert l1 H12.
  induction H23 as [| x l2 l3 _ IH | x l2 l3 _ IH]; intros l1 H12.
  - exact H12.
  - apply subsequence_skip. now apply IH.
  - inversion H12; subst.
    + apply subsequence_skip. now apply IH.
    + apply subsequence_keep. now apply IH.
Qed.

(** Zipping forgets at most a tail of the candidates. *)
Lemma subsequence_combine (candidates : list (Document * R)) (scores : list R) :
  subsequence (map doc_of (combine candidates scores)) (map fst candidates).
Proof.
  revert scores.
  induction candidates as [| c candidates IH]; intros scores; simpl.
  - constructor.
  - destruct scores as [| s scores]; simpl.
    + clear IH. apply subsequence_skip.
      induction candidates; simpl; constructor; assumption.
    + apply subsequence_keep. apply IH.
Qed.

Lemma in_combine_nth_error {A B : Type} (l : list A) (l' : list B) (a : A) (b : B) :
  In (a, b) (combine l l') <->
  exists i : nat, nth_error l i = Some a /\ nth_error l' i = Some b.
Proof.
  revert l'. induction l as [| x l IH]; intros l'; simpl.
  - split; [tauto |]. intros [[| i] [H _]]; discriminate.
  - destruct l' as [| y l']; simpl.
    + split; [tauto |]. intros [[| i] [_ H]]; discriminate.
    + split.
      * intros [Heq | Hin].
        -- inversion Heq; subst. now exists 0%nat.
        -- apply IH in Hin. destruct Hin as [i Hi]. now exists (S i).
      * intros [[| i] [Ha Hb]]; simpl in *.
        -- left. congruence.
        -- right. apply IH. now exists i.
Qed.

(** C6. The filter keeps exactly the candidates whose parallel score is at
    least the cutoff: its result is the zipped list filtered by [>=],
    projected on the documents; a document is kept exactly when some position
    holds it with a score [>= cutoff], a score equal to the cutoff included;
    and the kept documents stand in the order of retrieval. *)
Theorem evidence_filter_exact (candidates : list (Document * R))
  (scores : list R) (cutoff : R) :
  evidence_filter candidates scores cutoff
  = map doc_of (filter (passes cutoff) (combine candidates scores))
  /\ (forall doc : Document,
        In doc (evidence_filter candidates scores cutoff) <->
        exists (i : nat) (distance score : R),
          nth_error candidates i = Some (doc, distance)
          /\ nth_error scores i = Some score
          /\ (score >= cutoff)%R)
  /\ (forall (i : nat) (doc : Document) (distance : R),
        nth_error candidates i = Some (doc, distance) ->
        nth_error scores i = Some cutoff ->
        In doc (evidence_filter candidates scores cutoff))
  /\ subsequence (evidence_filter candidates scores cutoff) (map fst candidates).
Proof.
  unfold evidence_filter. rewrite second_pass_filter.
  assert (Hin : forall doc : Document,
             In doc (map doc_of (filter (passes cutoff) (combine candidates scores))) <->
             exists (i : nat) (distance score : R),
               nth_error candidates i = Some (doc, distance)
               /\ nth_error scores i = Some score
               /\ (score >= cutoff)%R).
  { intros doc. rewrite in_map_iff. split.
    - intros [[[doc' distance] score] [Hdoc Hf]].
      unfold doc_of in Hdoc. simpl in Hdoc. subst doc'.
      apply filter_In in Hf. destruct Hf as [Hc Hp].
      apply in_combine_nth_error in Hc. destruct Hc as [i [Hi Hs]].
      exists i, distance, score. repeat split; try assumption.
      unfold passes in Hp. simpl in Hp.
      destruct (Rge_dec score cutoff); [assumption | discriminate].
    - intros [i [distance [score [Hi [Hs Hge]]]]].
      exists ((doc, distance), score). split; [reflexivity |].
      apply filter_In. split.
      + apply in_combine_nth_error. now exists i.
      + unfold passes. simpl.
        destruct (Rge_dec score cutoff); [reflexivity | contradiction]. }
  split; [reflexivity | split; [exact Hin | split]].
  - intros i doc distance Hi Hs. apply Hin.
    exists i, distance, cutoff. repeat split; try assumption.
    apply Rge_refl.
  - eapply subsequence_trans.
    + apply subsequence_map_filter.
    + apply subsequence_combine.
Qed.

Lemma evidence_filter_exact_witness :
  nth_error [(mkDocument "first" [], 0.1); (mkDocument "second" [], 0.2)]%R 1
  = Some (mkDocument "second" [], 0.2%R)
  /\ nth_error [75; 60]%R 1 = Some 60%R
  /\ In (mkDocument "second" [])
       (evidence_filter
          [(mkDocument "first" [], 0.1); (mkDocument "second" [], 0.2)]%R
          [75; 60]%R 60%R).
Proof.
  split; [reflexivity | split; [reflexivity |]].
  apply (proj1 (proj2 (proj2 (evidence_filter_exact
           [(mkDocument "first" [], 0.1); (mkDocument "second" [], 0.2)]%R
           [75; 60]%R 60%R))) 1%nat (mkDocument "second" []) 0.2%R);
    reflexivity.
Defined.

(** The scores of the first pass are the converted distances, one per
    candidate and in the same order. *)
Lemma first_pass_map (docs_and_scores : list (Document * R)) (all_scores : list R) :
  first_pass docs_and_scores all_scores
  = all_scores ++ map (fun pair => calculate_relevance_score (snd pair)) docs_and_scores.
Proof.
  revert all_scores.
  induction docs_and_scores as [| [doc score] rest IH]; intros all_scores; simpl.
  - now rewrite app_nil_r.
  - rewrite IH, <- app_assoc. reflexivity.
Qed.

Lemma first_pass_length (docs_and_scores : list (Document * R)) :
  List.length (first_pass docs_and_scores []) = List.length docs_and_scores.
Proof. rewrite first_pass_map. simpl. apply length_map. Qed.

(** No candidate passes when every score is below 60. *)
Lemma second_pass_all_below (pairs : list ((Document * R) * R)) (cutoff : R) :
  (60 <= cutoff)%R ->
  Forall (fun pair => (snd pair < 60)%R) pairs ->
  second_pass pairs cutoff [] = [].
Proof.
  intros Hc Hall. rewrite second_pass_filter.
  induction Hall as [| pair pairs Hp _ IH]; simpl; [reflexivity |].
  unfold passes at 1. destruct (Rge_dec (snd pair) cutoff); [lra | exact IH].
Qed.

End EvidenceFilter.

(** ** Blank strings *)

Section BlankStrings.

Lemma rstrip_empty (s : string) :
  rstrip s = EmptyString <-> all_whitespace s = true.
Proof.
  induction s as [| c s IH]; simpl.
  - tauto.
  - destruct (rstrip s) as [| c' r] eqn:Hr; destruct (isspace c); simpl.
    + split; intros _; [now apply IH | reflexivity].
    + split; discriminate.
    + split; [discriminate |]. intros H. apply IH in H. discriminate.
    + split; discriminate.
Qed.

Lemma lstrip_all_whitespace (s : string) :
  all_whitespace s = true -> lstrip s = EmptyString.
Proof.
  induction s as [| c s IH]; simpl; [reflexivity |].
  destruct (isspace c); simpl; [exact IH | discriminate].
Qed.

Lemma lstrip_not_all_whitespace (s : string) :
  all_whitespace s = false ->
  exists (c : ascii) (t : string), lstrip s = String c t /\ isspace c = false.
Proof.
  induction s as [| c s IH]; simpl; [discriminate |].
  destruct (isspace c) eqn:Hc; simpl.
  - exact IH.
  - intros _. now exists c, s.
Qed.

Lemma truthy_rstrip_head (c : ascii) (t : string) :
  isspace c = false -> truthy (rstrip (String c t)) = true.
Proof.
  intros Hc. simpl. destruct (rstrip t); [rewrite Hc |]; reflexivity.
Qed.

(** [s.strip()] is truthy exactly when [s] has a character that is no
    whitespace. *)
Lemma truthy_strip (s : string) : truthy (strip s) = negb (all_whitespace s).
Proof.
  unfold strip. destruct (all_whitespace s) eqn:Hs; simpl.
  - now rewrite lstrip_all_whitespace.
  - destruct (lstrip_not_all_whitespace s Hs) as [c [t [-> Hc]]].
    now apply truthy_rstrip_head.
Qed.

(** The test [not s or not s.strip()]. *)
Lemma blank_test (s : string) :
  negb (truthy s) || negb (truthy (strip s)) = all_whitespace s.
Proof.
  rewrite truthy_strip, negb_involutive.
  destruct s as [| c s]; [reflexivity |]. reflexivity.
Qed.

Lemma all_whitespace_empty (s : string) : s = EmptyString -> all_whitespace s = true.
Proof. intros ->. reflexivity. Qed.

End BlankStrings.

(** ** The query pipeline *)

Section Pipeline.

Variable W : Type.
Variable vectordb : VectorStore W.
Variable qa_chain : Chain W.

(** On the no-evidence path the context handed to the chain is empty. *)
Lemma context_of_no_evidence (docs_and_scores : list (Document * R)) :
  filtered_docs docs_and_scores = [] -> context_of docs_and_scores = EmptyString.
Proof. unfold context_of. intros ->. reflexivity. Qed.

(** The [try] block, call by call. *)
Lemma get_rag_response_try_run (query : string) (w : W) :
  get_rag_response_try vectordb qa_chain query w =
  match similarity_search_with_score vectordb query 3 w with
  | (Raise e, w1) => (Raise e, w1)
  | (Return docs_and_scores, w1) =>
      match qa_chain (chain_inputs query (context_of docs_and_scores)) w1 with
      | (Raise e, w2) => (Raise e, w2)
      | (Return out, w2) => (Return (composed_answer docs_and_scores out), w2)
      end
  end.
Proof.
  unfold get_rag_response_try, bind.
  destruct (similarity_search_with_score vectordb query 3 w) as [[docs | e] w1];
    [| reflexivity].
  cbv zeta.
  change (second_pass (combine docs (first_pass docs []))
            (threshold (first_pass docs [])) [])
    with (filtered_docs docs).
  unfold composed_answer, context_of, chain_inputs.
  destruct (filtered_docs docs) as [| d ds].
  - simpl. now destruct (qa_chain _ w1) as [[out | e] w2].
  - destruct (qa_chain _ w1) as [[out | e] w2]; [| reflexivity].
    rewrite blank_test. now destruct (all_whitespace (result_text out)).
Qed.

(** The whole function on a query that is not blank. *)
Lemma get_rag_response_run (query : string) (w : W) :
  all_whitespace query = false ->
  get_rag_response vectordb qa_chain query w =
  match get_rag_response_try vectordb qa_chain query w with
  | (Return answer, w') => (Return answer, w')
  | (Raise e, w') => (Return ("Error processing query: " ++ str e)%string, w')
  end.
Proof.
  intros Hq. unfold get_rag_response. rewrite blank_test, Hq.
  unfold try_except. now destruct (get_rag_response_try _ _ _ w) as [[a | e] w'].
Qed.

(** C7. On a query that is empty or all whitespace the pipeline returns the
    fixed message and leaves the world as it was, whatever the vector store
    and the chain are: neither is invoked. *)
Theorem blank_query_short_circuit (query : string) (w : W) :
  all_whitespace query = true ->
  get_rag_response vectordb qa_chain query w
  = (Return "Please provide a valid question.", w).
Proof.
  intros Hq. unfold get_rag_response. rewrite blank_test, Hq. reflexivity.
Qed.

(** C5. On a query that is not blank the pipeline always returns an answer;
    when the search raises [e], or the search returns and the chain raises
    [e], that answer is ["Error processing query: "] followed by [str(e)]. *)
Theorem collaborator_failure_absorbed (query : string) (w : W) :
  all_whitespace query = false ->
  (exists (answer : string) (w' : W),
      get_rag_response vectordb qa_chain query w = (Return answer, w'))
  /\ (forall (e : exn) (w1 : W),
        similarity_search_with_score vectordb query 3 w = (Raise e, w1) ->
        get_rag_response vectordb qa_chain query w
        = (Return ("Error processing query: " ++ str e)%string, w1))
  /\ (forall (docs_and_scores : list (Document * R)) (e : exn) (w1 w2 : W),
        similarity_search_with_score vectordb query 3 w = (Return docs_and_scores, w1) ->
        qa_chain (chain_inputs query (context_of docs_and_scores)) w1 = (Raise e, w2) ->
        get_rag_response vectordb qa_chain query w
        = (Return ("Error processing query: " ++ str e)%string, w2)).
Proof.
  intros Hq. rewrite (get_rag_response_run query w Hq).
  rewrite get_rag_response_try_run.
  split; [| split].
  - destruct (similarity_search_with_score vectordb query 3 w) as [[docs | e] w1].
    + destruct (qa_chain _ w1) as [[out | e] w2]; eauto.
    + eauto.
  - intros e w1 ->. reflexivity.
  - intros docs e w1 w2 -> ->. reflexivity.
Qed.

(** A blank query never reaches the [try] block, so the pipeline returns in
    every case. *)
Lemma get_rag_response_returns (query : string) (w : W) :
  exists (answer : string) (w' : W),
    get_rag_response vectordb qa_chain query w = (Return answer, w').
Proof.
  destruct (all_whitespace query) eqn:Hq.
  - exists please_provide, w. unfold get_rag_response.
    rewrite blank_test, Hq. reflexivity.
  - rewrite (get_rag_response_run query w Hq).
    destruct (get_rag_response_try vectordb qa_chain query w) as [[answer | e] w'];
      eauto.
Qed.

(** C2, as the code has it. When the chain returns a text that is empty or
    all whitespace on the evidence path, the pipeline returns the apology;
    when it returns the empty text on the no-evidence path, the pipeline
    returns the general-knowledge fallback text. *)
Theorem blank_answer_guard (query : string) (w w1 w2 : W)
  (docs_and_scores : list (Document * R)) (out : output) :
  all_whitespace query = false ->
  similarity_search_with_score vectordb query 3 w = (Return docs_and_scores, w1) ->
  qa_chain (chain_inputs query (context_of docs_and_scores)) w1 = (Return out, w2) ->
  (filtered_docs docs_and_scores <> [] ->
   all_whitespace (result_text out) = true ->
   get_rag_response vectordb qa_chain query w
   = (Return "I apologize, but I couldn't generate a meaningful response. Please try rephrasing your question.", w2))
  /\ (filtered_docs docs_and_scores = [] ->
      result_text out = EmptyString ->
      get_rag_response vectordb qa_chain query w
      = (Return "I don't have any relevant information from the provided documents to answer your question. Let me answer based on my general knowledge.", w2)).
Proof.
  intros Hq Hsearch Hchain.
  rewrite (get_rag_response_run query w Hq), get_rag_response_try_run.
  rewrite Hsearch, Hchain. unfold composed_answer.
  split.
  - intros Hne Hblank. destruct (filtered_docs docs_and_scores); [congruence |].
    rewrite Hblank. reflexivity.
  - intros -> ->. reflexivity.
Qed.

End Pipeline.

(** ** The chain of the module *)

Section DeployedChain.

Variable W : Type.
Variable vectordb : VectorStore W.
Variable llm : string -> M W string.

(** The chain searches the store itself and fills the prompt with what it
    finds; the ["context"] it is invoked with reaches neither the prompt nor
    the model. *)
Lemma qa_chain_run (query context : string) (w : W) :
  qa_chain vectordb llm (chain_inputs query context) w =
  match similarity_search vectordb query 3 w with
  | (Raise e, w1) => (Raise e, w1)
  | (Return docs, w1) =>
      match llm (custom_prompt
                   (String.concat (newline ++ newline) (map page_content docs))
                   query) w1 with
      | (Raise e, w2) => (Raise e, w2)
      | (Return answer, w2) =>
          (Return (OutDict [("query", query); ("context", context); ("result", answer)]), w2)
      end
  end.
Proof.
  unfold qa_chain, RetrievalQA_from_chain_type, retriever, as_retriever, chain_inputs.
  cbn [dict_get String.eqb Ascii.eqb Bool.eqb]. unfold bind.
  destruct (similarity_search vectordb query 3 w) as [[docs | e] w1]; [| reflexivity].
  change (String "010" (String "010" EmptyString)) with (newline ++ newline)%string.
  destruct (llm _ w1) as [[answer | e] w2]; reflexivity.
Qed.

End DeployedChain.

(** ** Runs with stand-in collaborators *)

Section Runs.
Local Open Scope R_scope.

(** A lone candidate at distance 0 scores 100 and is accepted. *)
Lemma filtered_docs_identical (doc : Document) : filtered_docs [(doc, 0)] = [doc].
Proof.
  unfold filtered_docs. cbn [first_pass app].
  rewrite calculate_relevance_score_0. cbn [combine second_pass app].
  destruct (Rge_dec 100 (threshold [100])) as [_ | Hn]; [reflexivity |].
  exfalso. apply Hn. pose proof (threshold_le_70 [100]). lra.
Qed.

(** A lone candidate at distance 1 scores below 25 and is rejected. *)
Lemma filtered_docs_distant (doc : Document) : filtered_docs [(doc, 1)] = [].
Proof.
  unfold filtered_docs. apply second_pass_all_below.
  - apply threshold_ge_60.
  - simpl. constructor; [| constructor]. simpl.
    pose proof (calculate_relevance_score_far 1). lra.
Qed.

Lemma blank_query_short_circuit_witness :
  all_whitespace "   " = true
  /\ get_rag_response
       (recording_store (fun _ => [(mkDocument "Hermes carries messages." [], 0)]))
       (qa_chain
          (recording_store (fun _ => [(mkDocument "Hermes carries messages." [], 0)]))
          (recording_llm (fun _ => "An answer.")))
       "   " []
     = (Return "Please provide a valid question.", []).
Proof.
  split; [reflexivity |].
  apply (blank_query_short_circuit (list event)). reflexivity.
Defined.

Lemma collaborator_failure_absorbed_witness :
  all_whitespace "Who is Hermes?" = false
  /\ get_rag_response (W := unit)
       (failing_store (Exception "index offline"))
       (fixed_chain (OutStr "An answer."))
       "Who is Hermes?" tt
     = (Return "Error processing query: index offline", tt)
  /\ get_rag_response (W := unit)
       (fixed_store [])
       (failing_chain (Exception "model unreachable"))
       "Who is Hermes?" tt
     = (Return "Error processing query: model unreachable", tt).
Proof.
  split; [reflexivity | split].
  - apply (proj1 (proj2 (collaborator_failure_absorbed unit
             (failing_store (Exception "index offline"))
             (fixed_chain (OutStr "An answer."))
             "Who is Hermes?" tt eq_refl)) (Exception "index offline") tt).
    reflexivity.
  - apply (proj2 (proj2 (collaborator_failure_absorbed unit
             (fixed_store [])
             (failing_chain (Exception "model unreachable"))
             "Who is Hermes?" tt eq_refl)) [] (Exception "model unreachable") tt tt).
    + reflexivity.
    + reflexivity.
Defined.

Lemma blank_answer_guard_witness :
  get_rag_response (W := unit)
    (fixed_store [(mkDocument "Hermes carries messages." [], 0)])
    (fixed_chain (OutDict [("result", "  ")]))
    "Who is Hermes?" tt
  = (Return "I apologize, but I couldn't generate a meaningful response. Please try rephrasing your question.", tt)
  /\ get_rag_response (W := unit)
       (fixed_store [])
       (fixed_chain (OutDict [("result", "")]))
       "Who is Hermes?" tt
     = (Return "I don't have any relevant information from the provided documents to answer your question. Let me answer based on my general knowledge.", tt).
Proof.
  split.
  - apply (proj1 (blank_answer_guard unit
             (fixed_store [(mkDocument "Hermes carries messages." [], 0)])
             (fixed_chain (OutDict [("result", "  ")]))
             "Who is Hermes?" tt tt tt
             [(mkDocument "Hermes carries messages." [], 0)]
             (OutDict [("result", "  ")])
             eq_refl eq_refl eq_refl)).
    + rewrite filtered_docs_identical. discriminate.
    + reflexivity.
  - apply (proj2 (blank_answer_guard unit
             (fixed_store [])
             (fixed_chain (OutDict [("result", "")]))
             "Who is Hermes?" tt tt tt [] (OutDict [("result", "")])
             eq_refl eq_refl eq_refl)).
    + reflexivity.
    + reflexivity.
Defined.

(** C2 as stated fails on the no-evidence path: the chain returns the empty
    text, and the pipeline answers with the general-knowledge fallback, not
    with the apology. *)
Lemma blank_answer_guard_counterexample :
  all_whitespace (result_text (OutDict [("result", "")])) = true
  /\ filtered_docs [] = []
  /\ get_rag_response (W := unit)
       (fixed_store [])
       (fixed_chain (OutDict [("result", "")]))
       "Who is Hermes?" tt
     <> (Return "I apologize, but I couldn't generate a meaningful response. Please try rephrasing your question.", tt).
Proof.
  split; [reflexivity | split; [reflexivity |]].
  intros H. discriminate H.
Qed.

End Runs.

(** ** The no-evidence path of the module's own chain *)

Section NoEvidence.
Local Open Scope R_scope.

(** Whatever fills the context slot of the prompt occurs in the prompt. *)
Lemma custom_prompt_includes_context (context question : string) :
  includes (custom_prompt context question) context.
Proof.
  exists (newline ++
   "You are a helpful and concise assistant. You will be provided with a question and some context." ++ newline ++
   newline ++
   "Instructions:" ++ newline ++
   "1. ONLY use the provided context if it contains RELEVANT information to answer the question." ++ newline ++
   "2. If the context is NOT relevant, IGNORE it and answer the question using your own knowledge." ++ newline ++
   "3. Do NOT generate creative or fictional answers." ++ newline ++
   "4. Do NOT attempt to justify or infer using the context if it's unrelated." ++ newline ++
   "5. Keep your response short and factual." ++ newline ++
   newline ++
   "Context:" ++ newline)%string.
  exists (newline ++ newline ++ "Question:" ++ newline ++ question ++ newline ++
          newline ++ "Answer:" ++ newline)%string.
  reflexivity.
Qed.

(** The pipeline does hand the chain an empty context on the no-evidence
    path. *)
Lemma no_evidence_invocation (W : Type) (vectordb : VectorStore W)
  (chain : Chain W) (query : string) (w w1 : W)
  (docs_and_scores : list (Document * R)) :
  similarity_search_with_score vectordb query 3 w = (Return docs_and_scores, w1) ->
  filtered_docs docs_and_scores = [] ->
  get_rag_response_try vectordb chain query w =
  match chain [("query", query); ("context", EmptyString)] w1 with
  | (Raise e, w2) => (Raise e, w2)
  | (Return out, w2) =>
      (Return (if truthy (result_text out) then result_text out else no_information), w2)
  end.
Proof.
  intros Hsearch Hnone. rewrite get_rag_response_try_run, Hsearch.
  rewrite (context_of_no_evidence _ Hnone). unfold composed_answer.
  rewrite Hnone. reflexivity.
Qed.

(** C1, at a failing input. The store holds one chunk, at distance 1 from the
    query; the filter rejects it; the pipeline invokes the chain with an empty
    context; the chain searches the store again and the prompt that reaches
    the model carries the content of the rejected chunk. *)
Theorem no_evidence_prompt_carries_chunk :
  let doc := mkDocument "Hermes carries messages." [] in
  let vectordb := recording_store (fun _ => [(doc, 1)]) in
  let llm := recording_llm (fun _ => "An answer.") in
  let query := "What is the boiling point of water?" in
  filtered_docs [(doc, 1)] = []
  /\ rag_engine vectordb llm query []
     = (Return "An answer.",
        [SearchedWithScore query 3; Searched query 3;
         Prompted (custom_prompt "Hermes carries messages." query)])
  /\ includes (custom_prompt "Hermes carries messages." query)
       "Hermes carries messages.".
Proof.
  intros doc vectordb llm query.
  split; [apply filtered_docs_distant | split].
  - unfold rag_engine.
    rewrite get_rag_response_run by reflexivity.
    rewrite (no_evidence_invocation _ _ _ _ _ [SearchedWithScore query 3] [(doc, 1)]);
      [| reflexivity | apply filtered_docs_distant].
    change [("query", query); ("context", EmptyString)]
      with (chain_inputs query EmptyString).
    rewrite qa_chain_run.
    reflexivity.
  - apply custom_prompt_includes_context.
Qed.

End NoEvidence.

(** ** The endpoint *)

Section Endpoint.

Variable W : Type.
Variable vectordb : VectorStore W.
Variable qa_chain : Chain W.

(** Whatever the handler's [try] block raises, the [HTTPException] of the
    missing message included, leaves the handler as a 500. *)
Lemma rag_chat_outcome (request : Request W) (w : W) :
  (exists (answer : dict string) (w' : W),
      rag_chat vectordb qa_chain request w = (Return answer, w'))
  \/ (exists (e : exn) (w' : W),
         rag_chat vectordb qa_chain request w
         = (Raise (HTTPException 500 (str e)), w')).
Proof.
  unfold rag_chat, try_except.
  match goal with
  | |- context [match ?body w with _ => _ end] =>
      destruct (body w) as [[answer | e] w']
  end.
  - left. now exists answer, w'.
  - right. now exists e, w'.
Qed.

(** The endpoint answers 200 or 500 and nothing else. *)
Lemma post_rag_status (request : Request W) (w : W) :
  status (post_rag vectordb qa_chain request w) = 200%Z
  \/ status (post_rag vectordb qa_chain request w) = 500%Z.
Proof.
  unfold post_rag.
  destruct (rag_chat_outcome request w) as [[answer [w' ->]] | [e [w' ->]]];
    [left | right]; reflexivity.
Qed.

(** A body without ["message"]: the handler raises the 400, its own
    [except Exception] catches it and raises a 500 whose detail is the
    rendering of the 400. *)
Lemma rag_chat_missing_message (request : Request W) (d : list (string * value))
  (w w1 : W) :
  json request w = (Return (PyDict d), w1) ->
  dict_get d "message" = None ->
  rag_chat vectordb qa_chain request w
  = (Raise (HTTPException 500 "400: No message provided in request"), w1).
Proof.
  intros Hjson Hget. unfold rag_chat, try_except, bind.
  rewrite Hjson. unfold body_get, ret. rewrite Hget. reflexivity.
Qed.

(** A failure inside the handler: a 500 carrying [str(e)]. *)
Lemma rag_chat_internal_failure (request : Request W) (e : exn) (w w1 : W) :
  json request w = (Raise e, w1) ->
  rag_chat vectordb qa_chain request w = (Raise (HTTPException 500 (str e)), w1).
Proof.
  intros Hjson. unfold rag_chat, try_except, bind. rewrite Hjson. reflexivity.
Qed.

(** C3, at a failing input. The request body [{}] has no ["message"]; the
    endpoint answers with status 500, which is no client error. *)
Theorem missing_message_answers_500 (w : W) :
  post_rag vectordb qa_chain (mkRequest W (ret (PyDict []))) w
  = mkResponse 500 [("detail", "400: No message provided in request")]
  /\ ~ client_error (post_rag vectordb qa_chain (mkRequest W (ret (PyDict []))) w)
  /\ server_error (post_rag vectordb qa_chain (mkRequest W (ret (PyDict []))) w).
Proof.
  assert (Hrun : post_rag vectordb qa_chain (mkRequest W (ret (PyDict []))) w
                 = mkResponse 500 [("detail", "400: No message provided in request")]).
  { unfold post_rag.
    rewrite (rag_chat_missing_message _ [] w w); reflexivity. }
  rewrite Hrun. unfold client_error, server_error. simpl.
  split; [reflexivity | split; lia].
Qed.

End Endpoint.

(* ================================================================= *)
(** * Further properties of the code *)

(** ** Scores and distances *)

Section ScoreRange.
Local Open Scope R_scope.

(** X1. A negative distance converts to a score of at least 100, and a
    distance of -1 or below to a score of at least 400: the converter does
    not clamp its result to the range 0..100. *)
Theorem calculate_relevance_score_negative_distance (d : R) :
  (d < 0 -> calculate_relevance_score d >= 100)
  /\ (d <= -1 -> calculate_relevance_score d >= 400).
Proof.
  split; intros Hd.
  - apply Rle_ge. rewrite <- calculate_relevance_score_0.
    apply calculate_relevance_score_antitone. lra.
  - apply Rle_ge.
    apply Rle_trans with (calculate_relevance_score (-1));
      [| now apply calculate_relevance_score_antitone].
    unfold calculate_relevance_score, Np.exp, F64.mul.
    replace (-3 * -1) with (IZR 3) by lra.
    rewrite (round_IZR 3) by (simpl; lia).
    pose proof exp_3_gt_8 as H8.
    assert (Hq : 4 <= F64.round (Rtrigo_def.exp 3)).
    { rewrite <- (round_IZR 4) by (simpl; lia). apply round_le. lra. }
    rewrite <- (round_IZR 400) by (simpl; lia). apply round_le. lra.
Qed.

Lemma calculate_relevance_score_negative_distance_witness :
  -1 < 0 /\ -1 <= -1
  /\ calculate_relevance_score (-1) >= 100
  /\ calculate_relevance_score (-1) >= 400.
Proof.
  split; [lra | split; [lra | split]].
  - apply (proj1 (calculate_relevance_score_negative_distance (-1))). lra.
  - apply (proj2 (calculate_relevance_score_negative_distance (-1))). lra.
Defined.

End ScoreRange.

(** ** The filter inside the pipeline *)

Section PipelineFilter.
Local Open Scope R_scope.

Lemma combine_map_self {A B : Type} (f : A -> B) (l : list A) :
  combine l (map f l) = map (fun a => (a, f a)) l.
Proof. induction l as [| a l IH]; simpl; [reflexivity | now rewrite IH]. Qed.

(** The two passes as one filter over the candidates. *)
Lemma filtered_docs_filter (docs_and_scores : list (Document * R)) :
  filtered_docs docs_and_scores =
  map doc_of
    (filter (passes (threshold (first_pass docs_and_scores [])))
       (map (fun pair => (pair, calculate_relevance_score (snd pair)))
          docs_and_scores)).
Proof.
  unfold filtered_docs. cbv zeta. rewrite second_pass_filter.
  f_equal. f_equal.
  rewrite first_pass_map. simpl app. apply combine_map_self.
Qed.

Lemma filter_all_pass (cutoff : R) (l : list (Document * R)) :
  Forall (fun pair => calculate_relevance_score (snd pair) >= cutoff) l ->
  map doc_of
    (filter (passes cutoff)
       (map (fun pair => (pair, calculate_relevance_score (snd pair))) l))
  = map fst l.
Proof.
  induction 1 as [| pair l Hp _ IH]; simpl; [reflexivity |].
  unfold passes at 1. simpl.
  destruct (Rge_dec (calculate_relevance_score (snd pair)) cutoff);
    [| contradiction].
  simpl. now rewrite IH.
Qed.

Lemma filter_none_pass (cutoff : R) (l : list (Document * R)) :
  Forall (fun pair => calculate_relevance_score (snd pair) < cutoff) l ->
  map doc_of
    (filter (passes cutoff)
       (map (fun pair => (pair, calculate_relevance_score (snd pair))) l))
  = [].
Proof.
  induction 1 as [| pair l Hp _ IH]; simpl; [reflexivity |].
  unfold passes at 1. simpl.
  destruct (Rge_dec (calculate_relevance_score (snd pair)) cutoff); [lra | exact IH].
Qed.

(** X4. With a single candidate the standard deviation is 0 and the two
    thresholds collapse: the candidate is accepted when its score is at
    least 60 and rejected when it is below 60. *)
Theorem single_candidate_accepted_from_60 (doc : Document) (d : R) :
  (calculate_relevance_score d >= 60 -> filtered_docs [(doc, d)] = [doc])
  /\ (calculate_relevance_score d < 60 -> filtered_docs [(doc, d)] = []).
Proof.
  rewrite filtered_docs_filter. cbn [first_pass app map filter].
  unfold passes. cbn [snd].
  set (s := calculate_relevance_score d).
  assert (Hmean : Np.mean [s] = s).
  { unfold Np.mean, Np.sum. simpl. field. }
  assert (Ht : threshold [s] = if Rlt_dec s 40 then 70 else 60).
  { rewrite threshold_nonempty, Hmean.
    destruct (Rlt_dec s 40); [reflexivity |].
    unfold population_std.
    destruct (Rgt_dec 0 20); [lra | reflexivity]. }
  rewrite Ht. split; intros Hs.
  - destruct (Rlt_dec s 40); [lra |].
    destruct (Rge_dec s 60); [reflexivity | contradiction].
  - destruct (Rlt_dec s 40).
    + destruct (Rge_dec s 70); [lra | reflexivity].
    + destruct (Rge_dec s 60); [lra | reflexivity].
Qed.

Lemma single_candidate_accepted_from_60_witness :
  calculate_relevance_score 0 >= 60
  /\ filtered_docs [(mkDocument "Hermes carries messages." [], 0)]
     = [mkDocument "Hermes carries messages." []].
Proof.
  assert (H : calculate_relevance_score 0 >= 60).
  { rewrite calculate_relevance_score_0. lra. }
  split; [exact H |].
  apply (proj1 (single_candidate_accepted_from_60
                  (mkDocument "Hermes carries messages." []) 0) H).
Defined.

(** X5. Whatever the batch, a retrieved candidate whose score is at least 70
    is among the accepted documents, and every accepted document is a
    retrieved candidate whose score is at least 60. *)
Theorem acceptance_band (docs_and_scores : list (Document * R)) (doc : Document) :
  (forall d : R,
      In (doc, d) docs_and_scores ->
      calculate_relevance_score d >= 70 ->
      In doc (filtered_docs docs_and_scores))
  /\ (In doc (filtered_docs docs_and_scores) ->
      exists d : R,
        In (doc, d) docs_and_scores /\ calculate_relevance_score d >= 60).
Proof.
  rewrite filtered_docs_filter.
  set (t := threshold (first_pass docs_and_scores [])).
  assert (Hlo : 60 <= t) by apply threshold_ge_60.
  assert (Hhi : t <= 70) by apply threshold_le_70.
  split.
  - intros d Hin Hs. apply in_map_iff.
    exists ((doc, d), calculate_relevance_score d). split; [reflexivity |].
    apply filter_In. split.
    + apply in_map_iff. now exists (doc, d).
    + unfold passes. simpl.
      destruct (Rge_dec (calculate_relevance_score d) t); [reflexivity | lra].
  - intros Hin. apply in_map_iff in Hin.
    destruct Hin as [[[doc' d] s] [Hdoc Hf]].
    unfold doc_of in Hdoc. simpl in Hdoc. subst doc'.
    apply filter_In in Hf. destruct Hf as [Hm Hp].
    apply in_map_iff in Hm. destruct Hm as [[doc'' d''] [Heq Hin]].
    inversion Heq; subst. simpl in *.
    exists d. split; [exact Hin |].
    unfold passes in Hp. simpl in Hp.
    destruct (Rge_dec (calculate_relevance_score d) t); [lra | discriminate].
Qed.

Lemma acceptance_band_witness :
  In (mkDocument "near" [], 0) [(mkDocument "near" [], 0); (mkDocument "far" [], 1)]
  /\ calculate_relevance_score 0 >= 70
  /\ In (mkDocument "near" [])
       (filtered_docs [(mkDocument "near" [], 0); (mkDocument "far" [], 1)]).
Proof.
  assert (Hin : In (mkDocument "near" [], 0)
                  [(mkDocument "near" [], 0); (mkDocument "far" [], 1)]).
  { left. reflexivity. }
  assert (Hs : calculate_relevance_score 0 >= 70).
  { rewrite calculate_relevance_score_0. lra. }
  split; [exact Hin | split; [exact Hs |]].
  apply (proj1 (acceptance_band
                  [(mkDocument "near" [], 0); (mkDocument "far" [], 1)]
                  (mkDocument "near" [])) 0 Hin Hs).
Defined.

(** X6. When every retrieved candidate scores at least 70 all of them are
    accepted, in the order of retrieval; when every one scores below 60 none
    is accepted and the pipeline is on its no-evidence path. *)
Theorem uniform_batches (docs_and_scores : list (Document * R)) :
  (Forall (fun pair => calculate_relevance_score (snd pair) >= 70) docs_and_scores ->
   filtered_docs docs_and_scores = map fst docs_and_scores)
  /\ (Forall (fun pair => calculate_relevance_score (snd pair) < 60) docs_and_scores ->
      filtered_docs docs_and_scores = []).
Proof.
  rewrite filtered_docs_filter.
  set (t := threshold (first_pass docs_and_scores [])).
  assert (Hlo : 60 <= t) by apply threshold_ge_60.
  assert (Hhi : t <= 70) by apply threshold_le_70.
  split; intros Hall.
  - apply filter_all_pass. eapply Forall_impl; [| exact Hall].
    simpl. intros pair Hp. lra.
  - apply filter_none_pass. eapply Forall_impl; [| exact Hall].
    simpl. intros pair Hp. lra.
Qed.

Lemma uniform_batches_witness :
  filtered_docs [(mkDocument "near" [], 0); (mkDocument "nearer" [], 0)]
  = [mkDocument "near" []; mkDocument "nearer" []]
  /\ filtered_docs [(mkDocument "far" [], 1); (mkDocument "farther" [], 2)] = [].
Proof.
  split.
  - apply (proj1 (uniform_batches
                    [(mkDocument "near" [], 0); (mkDocument "nearer" [], 0)])).
    repeat constructor; simpl; rewrite calculate_relevance_score_0; lra.
  - apply (proj2 (uniform_batches
                    [(mkDocument "far" [], 1); (mkDocument "farther" [], 2)])).
    repeat constructor; simpl.
    + pose proof (calculate_relevance_score_far 1). lra.
    + pose proof (calculate_relevance_score_far 2). lra.
Defined.

End PipelineFilter.

(** ** What the pipeline answers *)

Section Answers.

Variable W : Type.
Variable vectordb : VectorStore W.
Variable chain : Chain W.

Lemma not_all_whitespace_truthy (s : string) :
  all_whitespace s = false -> truthy s = true.
Proof. destruct s; [discriminate | reflexivity]. Qed.

Lemma composed_answer_truthy (docs_and_scores : list (Document * R)) (out : output) :
  truthy (composed_answer docs_and_scores out) = true.
Proof.
  unfold composed_answer. destruct (filtered_docs docs_and_scores).
  - destruct (truthy (result_text out)) eqn:Ht; [exact Ht | reflexivity].
  - destruct (all_whitespace (result_text out)) eqn:Hb; [reflexivity |].
    now apply not_all_whitespace_truthy.
Qed.

(** What the pipeline returns is truthy. *)
Lemma get_rag_response_truthy (query answer : string) (w w' : W) :
  get_rag_response vectordb chain query w = (Return answer, w') ->
  truthy answer = true.
Proof.
  destruct (all_whitespace query) eqn:Hq.
  - unfold get_rag_response. rewrite blank_test, Hq.
    intros H. inversion H. reflexivity.
  - rewrite (get_rag_response_run _ _ _ query w Hq), get_rag_response_try_run.
    destruct (similarity_search_with_score vectordb query 3 w) as [[docs | e] w1].
    + destruct (chain _ w1) as [[out | e] w2]; intros H; inversion H.
      * apply composed_answer_truthy.
      * reflexivity.
    + intros H. inversion H. reflexivity.
Qed.

(** X7. Whatever the query, the vector store and the chain, an answer that
    the pipeline returns is never the empty string. *)
Theorem get_rag_response_never_empty (query answer : string) (w w' : W) :
  get_rag_response vectordb chain query w = (Return answer, w') ->
  truthy answer = true /\ answer <> EmptyString.
Proof.
  intros Hrun.
  pose proof (get_rag_response_truthy query answer w w' Hrun) as Ht.
  split; [exact Ht |].
  intros ->. discriminate Ht.
Qed.

(** X8. On the no-evidence path every text of the chain that is not empty is
    returned as it is, a text of nothing but whitespace included: the
    whitespace test of the evidence path is not applied there. *)
Theorem no_evidence_text_unchanged (query : string) (w w1 w2 : W)
  (docs_and_scores : list (Document * R)) (out : output) :
  all_whitespace query = false ->
  similarity_search_with_score vectordb query 3 w = (Return docs_and_scores, w1) ->
  filtered_docs docs_and_scores = [] ->
  chain (chain_inputs query EmptyString) w1 = (Return out, w2) ->
  truthy (result_text out) = true ->
  get_rag_response vectordb chain query w = (Return (result_text out), w2).
Proof.
  intros Hq Hsearch Hnone Hchain Htext.
  rewrite (get_rag_response_run _ _ _ query w Hq), get_rag_response_try_run.
  rewrite Hsearch, (context_of_no_evidence _ Hnone), Hchain.
  unfold composed_answer. rewrite Hnone, Htext. reflexivity.
Qed.

(** X9. A [dict] from the chain without the key ["result"] counts as an empty
    text: the apology on the evidence path, the general-knowledge fallback on
    the no-evidence path. *)
Theorem missing_result_key (query : string) (w w1 w2 : W)
  (docs_and_scores : list (Document * R)) (d : dict string) :
  all_whitespace query = false ->
  similarity_search_with_score vectordb query 3 w = (Return docs_and_scores, w1) ->
  chain (chain_inputs query (context_of docs_and_scores)) w1 = (Return (OutDict d), w2) ->
  dict_get d "result" = None ->
  get_rag_response vectordb chain query w
  = (Return (match filtered_docs docs_and_scores with
             | [] => no_information
             | _ :: _ => apology
             end), w2).
Proof.
  intros Hq Hsearch Hchain Hkey.
  rewrite (get_rag_response_run _ _ _ query w Hq), get_rag_response_try_run.
  rewrite Hsearch, Hchain. unfold composed_answer, result_text. rewrite Hkey.
  destruct (filtered_docs docs_and_scores); reflexivity.
Qed.

End Answers.

Section AnswerRuns.
Local Open Scope R_scope.

Lemma get_rag_response_never_empty_witness :
  get_rag_response (W := unit) (fixed_store [])
    (fixed_chain (OutDict [("result", "")])) "Who is Hermes?" tt
  = (Return no_information, tt)
  /\ truthy no_information = true /\ no_information <> EmptyString.
Proof.
  split; [reflexivity |].
  apply (get_rag_response_never_empty unit (fixed_store [])
           (fixed_chain (OutDict [("result", "")])) "Who is Hermes?"
           no_information tt tt).
  reflexivity.
Defined.

Lemma no_evidence_text_unchanged_witness :
  get_rag_response (W := unit)
    (fixed_store [(mkDocument "Hermes carries messages." [], 1)])
    (fixed_chain (OutDict [("result", "   ")]))
    "Who is Hermes?" tt
  = (Return "   ", tt).
Proof.
  apply (no_evidence_text_unchanged unit
           (fixed_store [(mkDocument "Hermes carries messages." [], 1)])
           (fixed_chain (OutDict [("result", "   ")]))
           "Who is Hermes?" tt tt tt
           [(mkDocument "Hermes carries messages." [], 1)]
           (OutDict [("result", "   ")])).
  - reflexivity.
  - reflexivity.
  - apply filtered_docs_distant.
  - reflexivity.
  - reflexivity.
Defined.

Lemma missing_result_key_witness :
  get_rag_response (W := unit)
    (fixed_store [])
    (fixed_chain (OutDict [("query", "Who is Hermes?")]))
    "Who is Hermes?" tt
  = (Return no_information, tt).
Proof.
  apply (missing_result_key unit
           (fixed_store [])
           (fixed_chain (OutDict [("query", "Who is Hermes?")]))
           "Who is Hermes?" tt tt tt [] [("query", "Who is Hermes?")]);
    reflexivity.
Defined.

End AnswerRuns.

(** ** The module's own chain inside the pipeline *)

Section DeployedEngine.

Variable W : Type.
Variable vectordb : VectorStore W.
Variable llm : string -> M W string.

(** X10. The module's chain gives the same outcome and leaves the same world
    whatever context it is invoked with: only the query reaches the retriever
    and the model. *)
Theorem qa_chain_ignores_context (query context1 context2 : string) (w : W) :
  snd (qa_chain vectordb llm (chain_inputs query context1) w)
  = snd (qa_chain vectordb llm (chain_inputs query context2) w)
  /\ match fst (qa_chain vectordb llm (chain_inputs query context1) w),
           fst (qa_chain vectordb llm (chain_inputs query context2) w) with
     | Return out1, Return out2 => result_text out1 = result_text out2
     | Raise e1, Raise e2 => e1 = e2
     | _, _ => False
     end.
Proof.
  rewrite !qa_chain_run.
  destruct (similarity_search vectordb query 3 w) as [[docs | e] w1];
    [| split; reflexivity].
  destruct (llm _ w1) as [[answer | e] w2]; split; reflexivity.
Qed.

(** X11. The pipeline over the module's own chain, on either path: the prompt
    that reaches the model is filled with the documents of the chain's own
    search, and the filter decides only how the model's text is
    post-processed. *)
Theorem rag_engine_prompt (query answer : string) (w w1 w2 w3 : W)
  (docs_and_scores : list (Document * R)) (docs : list Document) :
  all_whitespace query = false ->
  similarity_search_with_score vectordb query 3 w = (Return docs_and_scores, w1) ->
  similarity_search vectordb query 3 w1 = (Return docs, w2) ->
  llm (custom_prompt (String.concat (newline ++ newline) (map page_content docs)) query) w2
  = (Return answer, w3) ->
  rag_engine vectordb llm query w
  = (Return (composed_answer docs_and_scores (OutStr answer)), w3).
Proof.
  intros Hq Hsearch Hretrieve Hllm. unfold rag_engine.
  rewrite (get_rag_response_run _ _ _ query w Hq), get_rag_response_try_run.
  rewrite Hsearch, qa_chain_run, Hretrieve, Hllm.
  reflexivity.
Qed.

End DeployedEngine.

Section DeployedEngineRuns.
Local Open Scope R_scope.

Lemma rag_engine_prompt_witness :
  rag_engine
    (recording_store (fun _ => [(mkDocument "near" [], 0); (mkDocument "far" [], 1)]))
    (recording_llm (fun _ => "An answer."))
    "Who is Hermes?" []
  = (Return (composed_answer [(mkDocument "near" [], 0); (mkDocument "far" [], 1)]
               (OutStr "An answer.")),
     [SearchedWithScore "Who is Hermes?" 3; Searched "Who is Hermes?" 3;
      Prompted (custom_prompt ("near" ++ newline ++ newline ++ "far") "Who is Hermes?")]).
Proof.
  apply (rag_engine_prompt (list event)
           (recording_store (fun _ => [(mkDocument "near" [], 0); (mkDocument "far" [], 1)]))
           (recording_llm (fun _ => "An answer."))
           "Who is Hermes?" "An answer."
           [] [SearchedWithScore "Who is Hermes?" 3]
           [SearchedWithScore "Who is Hermes?" 3; Searched "Who is Hermes?" 3]
           _
           [(mkDocument "near" [], 0); (mkDocument "far" [], 1)]
           [mkDocument "near" []; mkDocument "far" []]);
    reflexivity.
Defined.

End DeployedEngineRuns.

(** ** The endpoint, case by case *)

Section EndpointCases.

Variable W : Type.
Variable vectordb : VectorStore W.
Variable chain : Chain W.

(** The handler once the body is parsed into a [dict] that holds a message. *)
Lemma rag_chat_with_message (request : Request W) (d : list (string * value))
  (v : value) (w w1 : W) :
  json request w = (Return (PyDict d), w1) ->
  dict_get d "message" = Some v ->
  rag_chat vectordb chain request w =
  if negb (truthy_value v)
  then (Raise (HTTPException 500 (str (HTTPException 400 no_message))), w1)
  else
    match call_get_rag_response vectordb chain v w1 with
    | (Return response, w2) =>
        (Return [("answer", if negb (truthy response) then no_response else response)], w2)
    | (Raise e, w2) => (Raise (HTTPException 500 (str e)), w2)
    end.
Proof.
  intros Hjson Hget. unfold rag_chat, try_except, bind.
  rewrite Hjson. unfold body_get, ret. rewrite Hget.
  destruct (negb (truthy_value v)); [reflexivity |].
  destruct (call_get_rag_response vectordb chain v w1) as [[response | e] w2];
    [| reflexivity].
  destruct (negb (truthy response)); reflexivity.
Qed.

(** X12. For a message that is a non-empty string, whatever answer
    [get_rag_response] returns is sent back as it is with status 200: the
    handler's own fallback for an empty answer is never used. *)
Theorem string_message_answered (request : Request W) (d : list (string * value))
  (s answer : string) (w w1 w2 : W) :
  json request w = (Return (PyDict d), w1) ->
  dict_get d "message" = Some (PyStr s) ->
  truthy s = true ->
  get_rag_response vectordb chain s w1 = (Return answer, w2) ->
  rag_chat vectordb chain request w = (Return [("answer", answer)], w2)
  /\ post_rag vectordb chain request w = mkResponse 200 [("answer", answer)].
Proof.
  intros Hjson Hget Hs Hrun.
  pose proof (get_rag_response_truthy W vectordb chain s answer w1 w2 Hrun)
    as Hanswer.
  assert (Hchat : rag_chat vectordb chain request w = (Return [("answer", answer)], w2)).
  { rewrite (rag_chat_with_message request d (PyStr s) w w1 Hjson Hget).
    simpl truthy_value. rewrite Hs. simpl negb. cbv iota.
    unfold call_get_rag_response. rewrite Hrun, Hanswer. reflexivity. }
  split; [exact Hchat |].
  unfold post_rag. rewrite Hchat. reflexivity.
Qed.

(** X13. A message of nothing but whitespace passes the handler's test and is
    turned away by the engine's: status 200 with the engine's request for a
    valid question, and neither the store nor the chain is reached. *)
Theorem whitespace_message_answered (request : Request W)
  (d : list (string * value)) (s : string) (w w1 : W) :
  json request w = (Return (PyDict d), w1) ->
  dict_get d "message" = Some (PyStr s) ->
  truthy s = true ->
  all_whitespace s = true ->
  rag_chat vectordb chain request w
  = (Return [("answer", "Please provide a valid question.")], w1).
Proof.
  intros Hjson Hget Hs Hblank.
  rewrite (rag_chat_with_message request d (PyStr s) w w1 Hjson Hget).
  simpl truthy_value. rewrite Hs. simpl negb. cbv iota.
  unfold call_get_rag_response, get_rag_response.
  rewrite blank_test, Hblank. reflexivity.
Qed.

(** X14. A message that is present but falsy (the empty string, 0, false,
    null, an empty list or object) is answered like a missing one: status 500
    whose detail is the rendering of the handler's own 400. *)
Theorem falsy_message_answers_500 (request : Request W)
  (d : list (string * value)) (v : value) (w w1 : W) :
  json request w = (Return (PyDict d), w1) ->
  dict_get d "message" = Some v ->
  truthy_value v = false ->
  rag_chat vectordb chain request w
  = (Raise (HTTPException 500 "400: No message provided in request"), w1).
Proof.
  intros Hjson Hget Hv.
  rewrite (rag_chat_with_message request d v w w1 Hjson Hget), Hv.
  reflexivity.
Qed.

(** X15. A message that is truthy and no string (a number, true, a non-empty
    list or object) fails inside the engine at [query.strip()], outside the
    engine's [try]: status 500 whose detail names the missing attribute. *)
Theorem non_string_message_answers_500 (request : Request W)
  (d : list (string * value)) (v : value) (w w1 : W) :
  json request w = (Return (PyDict d), w1) ->
  dict_get d "message" = Some v ->
  truthy_value v = true ->
  (forall s : string, v <> PyStr s) ->
  rag_chat vectordb chain request w
  = (Raise (HTTPException 500
             ("'" ++ type_name v ++ "' object has no attribute 'strip'")%string), w1).
Proof.
  intros Hjson Hget Hv Hns.
  rewrite (rag_chat_with_message request d v w w1 Hjson Hget), Hv.
  simpl negb. cbv iota. unfold call_get_rag_response.
  destruct v as [| b | n | x | s | l | d']; try (rewrite Hv; reflexivity).
  exfalso. now apply (Hns s).
Qed.

(** X16. A body that parses to anything but an object fails at [body.get]:
    status 500 whose detail names the missing attribute. *)
Theorem non_object_body_answers_500 (request : Request W) (body : value) (w w1 : W) :
  json request w = (Return body, w1) ->
  (forall d : list (string * value), body <> PyDict d) ->
  rag_chat vectordb chain request w
  = (Raise (HTTPException 500
             ("'" ++ type_name body ++ "' object has no attribute 'get'")%string), w1).
Proof.
  intros Hjson Hno. unfold rag_chat, try_except, bind. rewrite Hjson.
  destruct body; try reflexivity.
  exfalso. now apply (Hno d).
Qed.

(** X17. Whatever the request, the endpoint never answers with a client
    error: its status is 200 or 500. *)
Theorem endpoint_never_client_error (request : Request W) (w : W) :
  ~ client_error (post_rag vectordb chain request w)
  /\ (status (post_rag vectordb chain request w) = 200%Z
      \/ status (post_rag vectordb chain request w) = 500%Z).
Proof.
  pose proof (post_rag_status W vectordb chain request w) as Hst.
  split; [| exact Hst].
  unfold client_error. destruct Hst as [-> | ->]; lia.
Qed.

(** X18. A failure of the search during a query is reported in band: the
    endpoint answers 200 and the answer is the engine's error text. *)
Theorem search_failure_in_band (request : Request W) (d : list (string * value))
  (s : string) (e : exn) (w w1 w2 : W) :
  json request w = (Return (PyDict d), w1) ->
  dict_get d "message" = Some (PyStr s) ->
  all_whitespace s = false ->
  similarity_search_with_score vectordb s 3 w1 = (Raise e, w2) ->
  post_rag vectordb chain request w
  = mkResponse 200 [("answer", ("Error processing query: " ++ str e)%string)].
Proof.
  intros Hjson Hget Hs Hsearch. unfold post_rag.
  rewrite (rag_chat_with_message request d (PyStr s) w w1 Hjson Hget).
  simpl truthy_value. rewrite (not_all_whitespace_truthy s Hs).
  simpl negb. cbv iota. unfold call_get_rag_response.
  rewrite (get_rag_response_run _ _ _ s w1 Hs), get_rag_response_try_run, Hsearch.
  reflexivity.
Qed.

End EndpointCases.

Section EndpointRuns.
Local Open Scope R_scope.

Lemma string_message_answered_witness :
  rag_chat (W := unit) (fixed_store []) (fixed_chain (OutStr "An answer."))
    (mkRequest unit (ret (PyDict [("message", PyStr "Who is Hermes?")]))) tt
  = (Return [("answer", "An answer.")], tt)
  /\ post_rag (W := unit) (fixed_store []) (fixed_chain (OutStr "An answer."))
       (mkRequest unit (ret (PyDict [("message", PyStr "Who is Hermes?")]))) tt
     = mkResponse 200 [("answer", "An answer.")].
Proof.
  apply (string_message_answered unit (fixed_store [])
           (fixed_chain (OutStr "An answer."))
           (mkRequest unit (ret (PyDict [("message", PyStr "Who is Hermes?")])))
           [("message", PyStr "Who is Hermes?")] "Who is Hermes?" "An answer."
           tt tt tt);
    reflexivity.
Defined.

Lemma whitespace_message_answered_witness :
  rag_chat (W := unit) (failing_store (Exception "index offline"))
    (failing_chain (Exception "model unreachable"))
    (mkRequest unit (ret (PyDict [("message", PyStr "   ")]))) tt
  = (Return [("answer", "Please provide a valid question.")], tt).
Proof.
  apply (whitespace_message_answered unit
           (failing_store (Exception "index offline"))
           (failing_chain (Exception "model unreachable"))
           (mkRequest unit (ret (PyDict [("message", PyStr "   ")])))
           [("message", PyStr "   ")] "   " tt tt);
    reflexivity.
Defined.

Lemma falsy_message_answers_500_witness :
  rag_chat (W := unit) (fixed_store []) (fixed_chain (OutStr "An answer."))
    (mkRequest unit (ret (PyDict [("message", PyStr "")]))) tt
  = (Raise (HTTPException 500 "400: No message provided in request"), tt)
  /\ rag_chat (W := unit) (fixed_store []) (fixed_chain (OutStr "An answer."))
       (mkRequest unit (ret (PyDict [("message", PyInt 0)]))) tt
     = (Raise (HTTPException 500 "400: No message provided in request"), tt).
Proof.
  split.
  - apply (falsy_message_answers_500 unit (fixed_store [])
             (fixed_chain (OutStr "An answer."))
             (mkRequest unit (ret (PyDict [("message", PyStr "")])))
             [("message", PyStr "")] (PyStr "") tt tt);
      reflexivity.
  - apply (falsy_message_answers_500 unit (fixed_store [])
             (fixed_chain (OutStr "An answer."))
             (mkRequest unit (ret (PyDict [("message", PyInt 0)])))
             [("message", PyInt 0)] (PyInt 0) tt tt);
      reflexivity.
Defined.

Lemma non_string_message_answers_500_witness :
  rag_chat (W := unit) (fixed_store []) (fixed_chain (OutStr "An answer."))
    (mkRequest unit (ret (PyDict [("message", PyInt 42)]))) tt
  = (Raise (HTTPException 500 "'int' object has no attribute 'strip'"), tt).
Proof.
  apply (non_string_message_answers_500 unit (fixed_store [])
           (fixed_chain (OutStr "An answer."))
           (mkRequest unit (ret (PyDict [("message", PyInt 42)])))
           [("message", PyInt 42)] (PyInt 42) tt tt).
  - reflexivity.
  - reflexivity.
  - reflexivity.
  - intros s H. discriminate H.
Defined.

Lemma non_object_body_answers_500_witness :
  rag_chat (W := unit) (fixed_store []) (fixed_chain (OutStr "An answer."))
    (mkRequest unit (ret (PyList [PyStr "Who is Hermes?"]))) tt
  = (Raise (HTTPException 500 "'list' object has no attribute 'get'"), tt).
Proof.
  apply (non_object_body_answers_500 unit (fixed_store [])
           (fixed_chain (OutStr "An answer."))
           (mkRequest unit (ret (PyList [PyStr "Who is Hermes?"])))
           (PyList [PyStr "Who is Hermes?"]) tt tt).
  - reflexivity.
  - intros d H. discriminate H.
Defined.

Lemma search_failure_in_band_witness :
  post_rag (W := unit) (failing_store (Exception "index offline"))
    (fixed_chain (OutStr "An answer."))
    (mkRequest unit (ret (PyDict [("message", PyStr "Who is Hermes?")]))) tt
  = mkResponse 200 [("answer", "Error processing query: index offline")].
Proof.
  apply (search_failure_in_band unit (failing_store (Exception "index offline"))
           (fixed_chain (OutStr "An answer."))
           (mkRequest unit (ret (PyDict [("message", PyStr "Who is Hermes?")])))
           [("message", PyStr "Who is Hermes?")] "Who is Hermes?"
           (Exception "index offline") tt tt tt);
    reflexivity.
Defined.

End EndpointRuns.

(** ** The start-up of the engine *)

Section StartupProperties.

Variable W : Type.
Variable Embeddings : Type.
Variable host : Host W Embeddings.

Lemma ends_with_slash_append (a b : string) :
  truthy b = true -> ends_with_slash (a ++ b) = ends_with_slash b.
Proof.
  intros Hb. induction a as [| c a IH]; [reflexivity |].
  simpl append. cbn [ends_with_slash]. rewrite IH.
  destruct (a ++ b)%string eqn:Hab; [| reflexivity].
  destruct a; simpl in Hab; [subst b |]; discriminate.
Qed.

Lemma string_append_assoc (a b c : string) :
  ((a ++ b) ++ c)%string = (a ++ (b ++ c))%string.
Proof. induction a as [| x a IH]; simpl; [reflexivity | now rewrite IH]. Qed.

Lemma truthy_append_right (a b : string) : truthy b = true -> truthy (a ++ b) = true.
Proof. intros Hb. destruct a; [exact Hb | reflexivity]. Qed.

(** The path of the PDF below a directory that is named without a trailing
    slash. *)
Lemma pdf_path_below (module_dir : string) :
  truthy module_dir = true ->
  ends_with_slash module_dir = false ->
  pdf_path module_dir = (module_dir ++ "/data/Test1.pdf")%string.
Proof.
  intros Hne Hslash. unfold pdf_path, data_dir, os_path_join.
  cbn [starts_with_slash Ascii.eqb Bool.eqb]. cbv iota.
  rewrite Hne, Hslash. cbn [negb orb]. cbv iota.
  change ("/" ++ "data")%string with "/data".
  rewrite (truthy_append_right module_dir "/data" eq_refl).
  rewrite (ends_with_slash_append module_dir "/data" eq_refl).
  change (ends_with_slash "/data") with false.
  cbn [negb orb]. cbv iota.
  rewrite string_append_assoc. reflexivity.
Qed.

(** X19. When the module sits in a directory named without a trailing slash
    and no file is at [<directory>/data/Test1.pdf], the import raises at
    once, with that path in its message, and the world is the one the
    existence test left: no loader, model or store is reached. *)
Theorem import_without_pdf (module_dir : string) (w w1 : W) :
  truthy module_dir = true ->
  ends_with_slash module_dir = false ->
  os_path_exists host (module_dir ++ "/data/Test1.pdf")%string w = (Return false, w1) ->
  rag_engine_import host module_dir w
  = (Raise (Exception ("PDF file not found at " ++ module_dir ++ "/data/Test1.pdf")%string), w1).
Proof.
  intros Hne Hslash Hexists. unfold rag_engine_import, bind.
  rewrite (pdf_path_below module_dir Hne Hslash), Hexists. reflexivity.
Qed.

(** X20. A failure of the PDF loader or of the splitter is not turned into a
    text: the import raises the same exception, from the world the failing
    step left. *)
Theorem import_with_broken_pdf (module_dir : string) (e : exn) (w w1 w2 : W) :
  os_path_exists host (pdf_path module_dir) w = (Return true, w1) ->
  load_and_split_pdf host (pdf_path module_dir) w1 = (Raise e, w2) ->
  rag_engine_import host module_dir w = (Raise e, w2)
  /\ (PyPDFLoader_load host (pdf_path module_dir) w1 = (Raise e, w2)
      \/ exists (docs : list Document) (w' : W),
           PyPDFLoader_load host (pdf_path module_dir) w1 = (Return docs, w')
           /\ split_documents host 1000 200 docs w' = (Raise e, w2)).
Proof.
  intros Hexists Hload. split.
  - unfold rag_engine_import, bind, try_reraise, try_except.
    rewrite Hexists. cbn [negb]. cbv beta iota. rewrite Hload. reflexivity.
  - unfold load_and_split_pdf, bind in Hload.
    destruct (PyPDFLoader_load host (pdf_path module_dir) w1) as [[docs | e'] w'].
    + right. now exists docs, w'.
    + left. exact Hload.
Qed.

(** X21. An import that goes through found the PDF, and the chain it leaves
    in the globals is the retrieval chain over the very store and model it
    leaves there: the chain searches the store that [get_rag_response]
    searches. *)
Theorem import_wires_chain (module_dir : string) (g : Globals W) (w w' : W) :
  rag_engine_import host module_dir w = (Return g, w') ->
  (exists w1 : W, os_path_exists host (pdf_path module_dir) w = (Return true, w1))
  /\ global_qa_chain g = qa_chain (global_vectordb g) (global_llm g).
Proof.
  unfold rag_engine_import, bind, try_reraise, try_except, raise, ret.
  destruct (os_path_exists host (pdf_path module_dir) w) as [[[|] | e] w1];
    cbn [negb]; cbv beta iota; try discriminate.
  destruct (load_and_split_pdf host (pdf_path module_dir) w1) as [[chunks | e] w2];
    try discriminate.
  destruct (HuggingFaceEmbeddings host "all-MiniLM-L6-v2" w2) as [[emb | e] w3];
    try discriminate.
  destruct (Chroma_from_documents host chunks emb w3) as [[vdb | e] w4];
    try discriminate.
  destruct (Ollama host "phi3" w4) as [[llm | e] w5]; try discriminate.
  intros H. inversion H; subst. split; [now exists w1 | reflexivity].
Qed.

End StartupProperties.

Section StartupRuns.

Lemma import_without_pdf_witness :
  rag_engine_import bare_host "/srv/backend" []
  = (Raise (Exception "PDF file not found at /srv/backend/data/Test1.pdf"), []).
Proof.
  apply (import_without_pdf (list string) unit bare_host "/srv/backend" [] []);
    reflexivity.
Defined.

Lemma import_with_broken_pdf_witness :
  rag_engine_import (broken_pdf_host (Exception "EOF marker not found"))
    "/srv/backend" []
  = (Raise (Exception "EOF marker not found"), []).
Proof.
  apply (proj1 (import_with_broken_pdf (list string) unit
                  (broken_pdf_host (Exception "EOF marker not found"))
                  "/srv/backend" (Exception "EOF marker not found") [] [] []
                  eq_refl eq_refl)).
Defined.

Lemma import_wires_chain_witness :
  exists (g : Globals (list string)) (w' : list string),
    rag_engine_import (working_host [] "An answer.") "/srv/backend" [] = (Return g, w')
    /\ global_qa_chain g = qa_chain (global_vectordb g) (global_llm g).
Proof.
  eexists. eexists. split; [reflexivity |].
  eapply (proj2 (import_wires_chain (list string) unit
                   (working_host [] "An answer.") "/srv/backend" _ [] _ eq_refl)).
Defined.

End StartupRuns.
